(** * SPLPv1 message validation (veta1428/Firewall)

    A shallow embedding of [validate_message], the SPLPv1 session
    validator, as it is written in [src/splpv1.c] (module [Splpv1]) and
    in the second copy of the file kept in the repository
    ([src/unnamed/part_000], module [Part000]).

    The C function reads the global [state], inspects the message and
    writes [state] back.  Here the global is threaded explicitly:
    [validate_message state msg] returns the new value of the global
    together with the returned [test_status].  Every access to
    [msg->text_message] goes through [char_at], which faults when the
    index lies beyond the terminating NUL of the text, and every access
    to one of the 128-entry lookup tables goes through [table_at], which
    faults when the index is not in [0, 128).  The [for] loops recurse
    on a fuel of one more than the length of the text, which is never
    used up on an ASCII text ([fuel_suffices]).

    After the two embeddings come the notions the specification names
    (character classes, the shape of a base64 token), the lemmas that
    relate the loops to them, the places where the two copies agree
    ([copies_agree]) and where a call returns
    ([Splpv1_validate_message_returns],
    [Part000_validate_message_returns]), the properties of the
    specification, C1 to C10, and further properties of the code, X1 to
    X17: the rows of the state table, the texts each state accepts, the
    tables, the reads past a text, and the moves of the state. *)

From Stdlib Require Import String Ascii ZArith List Bool Lia.
Import ListNotations.

Local Open Scope Z_scope.

(** ** C strings *)

(** A C string is represented by the characters that precede its
    terminating NUL; a character is the integer value of the [char]. *)
Definition cstring := list Z.

Definition char_code (c : ascii) : Z := Z.of_N (N_of_ascii c).

Definition str (s : string) : cstring := map char_code (list_ascii_of_string s).

(** A text as §6 of the specification describes it: ASCII and free of
    NUL. *)
Definition ascii_char (c : Z) : Prop := 0 < c < 128.

Definition ascii_text (s : cstring) : Prop := Forall ascii_char s.

Definition ascii_charb (c : Z) : bool := (0 <? c) && (c <? 128).

Definition ascii_textb (s : cstring) : bool := forallb ascii_charb s.

(** ** Faults and the error monad *)

Inductive fault : Type :=
| ReadPastTerminator (index : nat)
| TableIndexOutOfRange (c : Z)
| FuelExhausted.

Inductive result (A : Type) : Type :=
| Ok (a : A)
| Fault (f : fault).

Arguments Ok {A} a.
Arguments Fault {A} f.

Definition bind {A B : Type} (m : result A) (k : A -> result B) : result B :=
  match m with
  | Ok a => k a
  | Fault f => Fault f
  end.

Notation "x <- m ;; k" := (bind m (fun x => k))
  (at level 61, m at next level, right associativity).

(** [s[i]]: the characters of the text, then the NUL at [length s];
    anything further is outside the string. *)
Definition char_at (s : cstring) (i : nat) : result Z :=
  match Nat.compare i (length s) with
  | Lt => Ok (nth i s 0)
  | Eq => Ok 0
  | Gt => Fault (ReadPastTerminator i)
  end.

(** [strcmp] and [strncmp] of <string.h>: zero when equal, otherwise the
    difference of the first pair of characters that differ. *)
Fixpoint strcmp (s1 s2 : cstring) : Z :=
  match s1, s2 with
  | [], [] => 0
  | [], c2 :: _ => 0 - c2
  | c1 :: _, [] => c1
  | c1 :: r1, c2 :: r2 => if c1 =? c2 then strcmp r1 r2 else c1 - c2
  end.

Fixpoint strncmp (s1 s2 : cstring) (n : nat) {struct n} : Z :=
  match n with
  | O => 0
  | S n' =>
      match s1, s2 with
      | [], [] => 0
      | [], c2 :: _ => 0 - c2
      | c1 :: _, [] => c1
      | c1 :: r1, c2 :: r2 => if c1 =? c2 then strncmp r1 r2 n' else c1 - c2
      end
  end.

(** [strcmp(s + off, lit)]: the pointer [s + off] designates a string
    only while [off] does not pass the terminator. *)
Definition strcmp_from (s : cstring) (off : nat) (lit : cstring) : result Z :=
  if (off <=? length s)%nat then Ok (strcmp (skipn off s) lit)
  else Fault (ReadPastTerminator off).

(** ** Declarations of splpv1.h *)

(** Modelled from the spec: the header [splpv1.h] ([enum test_status],
    the direction constants [A_TO_B] and [B_TO_A], and [struct Message]
    with its fields [direction] and [text_message]) is not among the
    sources; §3 and §6 of the specification give a message as a
    direction and a text, and a verdict as valid or invalid. *)
Inductive test_status : Type := MESSAGE_INVALID | MESSAGE_VALID.

Inductive Direction : Type := A_TO_B | B_TO_A.

Record Message : Type := { direction : Direction; text_message : cstring }.

Definition Direction_eqb (d1 d2 : Direction) : bool :=
  match d1, d2 with
  | A_TO_B, A_TO_B | B_TO_A, B_TO_A => true
  | _, _ => false
  end.

(** ** Declarations shared by the two copies of the file *)

Inductive State : Type :=
| INIT | CONNECTING | CONNECTED | WAITING_VER | WAITING_DATA
| WAITING_B64_DATA | DISCONNECTING.

Definition State_eq_dec (s1 s2 : State) : {s1 = s2} + {s1 <> s2}.
Proof. decide equality. Defined.

Definition CONNECT : cstring := Eval cbv in str "CONNECT".
Definition CONNECT_OK : cstring := Eval cbv in str "CONNECT_OK".
Definition GET_VER : cstring := Eval cbv in str "GET_VER".
Definition GET_DATA : cstring := Eval cbv in str "GET_DATA".
Definition GET_FILE : cstring := Eval cbv in str "GET_FILE".
Definition GET_COMMAND : cstring := Eval cbv in str "GET_COMMAND".
Definition GET_B64 : cstring := Eval cbv in str "GET_B64".
Definition DISCONNECT : cstring := Eval cbv in str "DISCONNECT".
Definition VERSION : cstring := Eval cbv in str "VERSION".
Definition B64 : cstring := Eval cbv in str "B64:".
Definition DISCONNECT_OK : cstring := Eval cbv in str "DISCONNECT_OK".

(** [state = INIT; return MESSAGE_INVALID;] *)
Definition reset_invalid : result (State * test_status) :=
  Ok (INIT, MESSAGE_INVALID).

(** The loop of [WAITING_VER], the same in both copies:
    [for (i = 8; text[i] != '\0'; i++)
       if (!(text[i] >= 48 && text[i] < 58) || text[i] == 32) <invalid>]
    [true] when the loop runs to the terminator. *)
Fixpoint version_loop (fuel : nat) (text : cstring) (i : nat) : result bool :=
  match fuel with
  | O => Fault FuelExhausted
  | S fuel' =>
      c <- char_at text i ;;
      if c =? 0 then Ok true
      else if negb ((48 <=? c) && (c <? 58)) || (c =? 32) then Ok false
      else version_loop fuel' text (S i)
  end.

(** ** src/splpv1.c *)

Module Splpv1.

(** The character test of the [WAITING_DATA] loops. *)
Definition data_char (c : Z) : bool :=
  ((97 <=? c) && (c <=? 122)) || (c =? 46) || ((48 <=? c) && (c <=? 59)).

(** The character test of the [WAITING_B64_DATA] loop. *)
Definition b64_char (c : Z) : bool :=
  ((97 <=? c) && (c <=? 122)) || ((65 <=? c) && (c <=? 90))
  || ((48 <=? c) && (c <=? 57)) || (c =? 43) || (c =? 47).

(** The test applied to [text[i + 1]] after the loop. *)
Definition b64_char_or_equals (c : Z) : bool :=
  ((97 <=? c) && (c <=? 122)) || ((65 <=? c) && (c <=? 90))
  || ((48 <=? c) && (c <=? 57)) || (c =? 61) || (c =? 43) || (c =? 47).

(** [for (i = i0; text[i] != ' ' && text[i] != '\0'; i++)
       if (!data_char(text[i])) <invalid>]
    [Some i] is the index at which the loop stops, [None] the early
    return from inside it. *)
Fixpoint data_loop (fuel : nat) (text : cstring) (i : nat)
  : result (option nat) :=
  match fuel with
  | O => Fault FuelExhausted
  | S fuel' =>
      c <- char_at text i ;;
      if negb (c =? 32) && negb (c =? 0) then
        if negb (data_char c) then Ok None
        else data_loop fuel' text (S i)
      else Ok (Some i)
  end.

(** One of the three branches of [WAITING_DATA], entered once
    [strncmp(text, CMD, n) == 0]; the three differ in the literal and
    in the offsets [n] and [n + 1] only. *)
Definition data_reply (text CMD : cstring) (n : nat)
  : result (State * test_status) :=
  sep <- char_at text n ;;
  if negb (sep =? 32) then reset_invalid
  else
    stop <- data_loop (S (length text)) text (S n) ;;
    match stop with
    | None => reset_invalid
    | Some i =>
        c <- char_at text i ;;
        if c =? 0 then reset_invalid
        else
          r <- strcmp_from text (i + 1) CMD ;;
          if negb (r =? 0) then reset_invalid
          else Ok (CONNECTED, MESSAGE_VALID)
    end.

(** [for (i = 5; text[i + 2] != '\0'; i++)
       if (!b64_char(text[i])) <invalid>] *)
Fixpoint b64_loop (fuel : nat) (text : cstring) (i : nat)
  : result (option nat) :=
  match fuel with
  | O => Fault FuelExhausted
  | S fuel' =>
      ahead <- char_at text (i + 2) ;;
      if negb (ahead =? 0) then
        c <- char_at text i ;;
        if negb (b64_char c) then Ok None
        else b64_loop fuel' text (S i)
      else Ok (Some i)
  end.

(** The code of [WAITING_B64_DATA] after the loop; [i] is a [size_t],
    and at least 5 here, so [i - 3] does not wrap. *)
Definition b64_tail (text : cstring) (i : nat) : result (State * test_status) :=
  c <- char_at text i ;;
  padding_ok <-
    (if negb (b64_char c) then
       if c =? 61 then
         c1 <- char_at text (i + 1) ;; Ok (c1 =? 61)
       else Ok false
     else
       c1 <- char_at text (i + 1) ;; Ok (b64_char_or_equals c1)) ;;
  if negb padding_ok then reset_invalid
  else if negb ((Z.of_nat i - 3) mod 4 =? 0) then reset_invalid
  else Ok (CONNECTED, MESSAGE_VALID).

Definition validate_message (state : State) (msg : Message)
  : result (State * test_status) :=
  let text := text_message msg in
  match state with
  | INIT =>
      if negb (strcmp text CONNECT =? 0) then Ok (state, MESSAGE_INVALID)
      else if negb (Direction_eqb (direction msg) A_TO_B)
      then Ok (state, MESSAGE_INVALID)
      else Ok (CONNECTING, MESSAGE_VALID)
  | CONNECTING =>
      if negb (strcmp text CONNECT_OK =? 0) then reset_invalid
      else if negb (Direction_eqb (direction msg) B_TO_A) then reset_invalid
      else Ok (CONNECTED, MESSAGE_VALID)
  | CONNECTED =>
      if negb (Direction_eqb (direction msg) A_TO_B) then reset_invalid
      else if strcmp text GET_VER =? 0 then Ok (WAITING_VER, MESSAGE_VALID)
      else if (strcmp text GET_DATA =? 0) || (strcmp text GET_FILE =? 0)
              || (strcmp text GET_COMMAND =? 0)
      then Ok (WAITING_DATA, MESSAGE_VALID)
      else if strcmp text GET_B64 =? 0 then Ok (WAITING_B64_DATA, MESSAGE_VALID)
      else if strcmp text DISCONNECT =? 0 then Ok (DISCONNECTING, MESSAGE_VALID)
      else Ok (state, MESSAGE_INVALID)
  | WAITING_VER =>
      if strncmp text VERSION 7 =? 0 then
        sep <- char_at text 7 ;;
        if negb (sep =? 32) then reset_invalid
        else
          digits <- version_loop (S (length text)) text 8 ;;
          if digits then Ok (CONNECTED, MESSAGE_VALID) else reset_invalid
      else reset_invalid
  | WAITING_DATA =>
      if negb (Direction_eqb (direction msg) B_TO_A) then reset_invalid
      else if strncmp text GET_DATA 8 =? 0 then data_reply text GET_DATA 8
      else if strncmp text GET_FILE 8 =? 0 then data_reply text GET_FILE 8
      else if strncmp text GET_COMMAND 11 =? 0 then data_reply text GET_COMMAND 11
      else (* break; falls to the final return *) Ok (state, MESSAGE_VALID)
  | WAITING_B64_DATA =>
      if negb (Direction_eqb (direction msg) B_TO_A) then reset_invalid
      else if negb (strncmp text B64 4 =? 0) then reset_invalid
      else
        sep <- char_at text 4 ;;
        if negb (sep =? 32) then reset_invalid
        else
          stop <- b64_loop (S (length text)) text 5 ;;
          match stop with
          | None => reset_invalid
          | Some i => b64_tail text i
          end
  | DISCONNECTING =>
      if negb (strcmp text DISCONNECT_OK =? 0) then reset_invalid
      else if negb (Direction_eqb (direction msg) B_TO_A) then reset_invalid
      else Ok (INIT, MESSAGE_VALID)
  end.

End Splpv1.

(** ** src/unnamed/part_000 *)

Module Part000.

(** A [bool t[128]] written with 0 and 1, read at the value of a
    [char]: inside the array only for indices 0 to 127. *)
Definition table_at (t : list Z) (c : Z) : result bool :=
  if (0 <=? c) && (c <? 128) then Ok (negb (nth (Z.to_nat c) t 0 =? 0))
  else Fault (TableIndexOutOfRange c).

Definition table : list Z :=
  [0; 0; 0; 0; 0; 0; 0; 0; 0; 0;
   0; 0; 0; 0; 0; 0; 0; 0; 0; 0;
   0; 0; 0; 0; 0; 0; 0; 0; 0; 0;
   0; 0; 0; 0; 0; 0; 0; 0; 0; 0;
   0; 0; 0; 0; 0; 0; 1; 0; 1; 1;
   1; 1; 1; 1; 1; 1; 1; 1; 0; 0;
   0; 0; 0; 0; 0; 0; 0; 0; 0; 0;
   0; 0; 0; 0; 0; 0; 0; 0; 0; 0;
   0; 0; 0; 0; 0; 0; 0; 0; 0; 0;
   0; 0; 0; 0; 0; 0; 0; 1; 1; 1;
   1; 1; 1; 1; 1; 1; 1; 1; 1; 1;
   1; 1; 1; 1; 1; 1; 1; 1; 1; 1;
   1; 1; 1; 0; 0; 0; 0; 0].

Definition tableBase64 : list Z :=
  [0; 0; 0; 0; 0; 0; 0; 0; 0; 0;
   0; 0; 0; 0; 0; 0; 0; 0; 0; 0;
   0; 0; 0; 0; 0; 0; 0; 0; 0; 0;
   0; 0; 0; 0; 0; 0; 0; 0; 0; 0;
   0; 0; 0; 1; 0; 0; 0; 1; 1; 1;
   1; 1; 1; 1; 1; 1; 1; 1; 0; 0;
   0; 0; 0; 0; 0; 1; 1; 1; 1; 1;
   1; 1; 1; 1; 1; 1; 1; 1; 1; 1;
   1; 1; 1; 1; 1; 1; 1; 1; 1; 1;
   1; 0; 0; 0; 0; 0; 0; 1; 1; 1;
   1; 1; 1; 1; 1; 1; 1; 1; 1; 1;
   1; 1; 1; 1; 1; 1; 1; 1; 1; 1;
   1; 1; 1; 0; 0; 0; 0; 0].

Definition tableBase64WithEquals : list Z :=
  [0; 0; 0; 0; 0; 0; 0; 0; 0; 0;
   0; 0; 0; 0; 0; 0; 0; 0; 0; 0;
   0; 0; 0; 0; 0; 0; 0; 0; 0; 0;
   0; 0; 0; 0; 0; 0; 0; 0; 0; 0;
   0; 0; 0; 1; 0; 0; 0; 1; 1; 1;
   1; 1; 1; 1; 1; 1; 1; 1; 0; 0;
   0; 1; 0; 0; 0; 1; 1; 1; 1; 1;
   1; 1; 1; 1; 1; 1; 1; 1; 1; 1;
   1; 1; 1; 1; 1; 1; 1; 1; 1; 1;
   1; 0; 0; 0; 0; 0; 0; 1; 1; 1;
   1; 1; 1; 1; 1; 1; 1; 1; 1; 1;
   1; 1; 1; 1; 1; 1; 1; 1; 1; 1;
   1; 1; 1; 0; 0; 0; 0; 0].

(** [for (; *pointer != ' ' && *pointer != '\0';)
       { if (!*(table + *pointer)) <invalid>; pointer++; }]
    A pointer into the text is its offset from [msg->text_message]. *)
Fixpoint data_loop (fuel : nat) (text : cstring) (pointer : nat)
  : result (option nat) :=
  match fuel with
  | O => Fault FuelExhausted
  | S fuel' =>
      c <- char_at text pointer ;;
      if negb (c =? 32) && negb (c =? 0) then
        allowed <- table_at table c ;;
        if negb allowed then Ok None
        else data_loop fuel' text (S pointer)
      else Ok (Some pointer)
  end.

(** One of the three branches of [WAITING_DATA]; they differ in the
    literal and in the offsets [n] and [n + 1] only. *)
Definition data_reply (text CMD : cstring) (n : nat)
  : result (State * test_status) :=
  sep <- char_at text n ;;
  if negb (sep =? 32) then reset_invalid
  else
    stop <- data_loop (S (length text)) text (S n) ;;
    match stop with
    | None => reset_invalid
    | Some pointer =>
        c <- char_at text pointer ;;
        if c =? 0 then reset_invalid
        else
          r <- strcmp_from text (pointer + 1) CMD ;;
          if negb (r =? 0) then reset_invalid
          else Ok (CONNECTED, MESSAGE_VALID)
    end.

(** [for (; *(pointer + 2) != '\0';)
       { if (!*(tableBase64 + *pointer)) <invalid>; pointer++; }] *)
Fixpoint b64_loop (fuel : nat) (text : cstring) (pointer : nat)
  : result (option nat) :=
  match fuel with
  | O => Fault FuelExhausted
  | S fuel' =>
      ahead <- char_at text (pointer + 2) ;;
      if negb (ahead =? 0) then
        c <- char_at text pointer ;;
        allowed <- table_at tableBase64 c ;;
        if negb allowed then Ok None
        else b64_loop fuel' text (S pointer)
      else Ok (Some pointer)
  end.

(** The code of [WAITING_B64_DATA] after the loop; the pointer
    difference is a signed [ptrdiff_t], hence [Z.rem] for [%]. *)
Definition b64_tail (text : cstring) (initialPointer pointer : nat)
  : result (State * test_status) :=
  c <- char_at text pointer ;;
  allowed <- table_at tableBase64 c ;;
  padding_ok <-
    (if negb allowed then
       if c =? 61 then
         c1 <- char_at text (pointer + 1) ;; Ok (c1 =? 61)
       else Ok false
     else
       c1 <- char_at text (pointer + 1) ;;
       table_at tableBase64WithEquals c1) ;;
  if negb padding_ok then reset_invalid
  else if negb (Z.rem (Z.of_nat pointer + 2 - Z.of_nat initialPointer) 4 =? 0)
  then reset_invalid
  else Ok (CONNECTED, MESSAGE_VALID).

Definition validate_message (state : State) (msg : Message)
  : result (State * test_status) :=
  let text := text_message msg in
  match state with
  | INIT =>
      if negb (strcmp text CONNECT =? 0) then Ok (state, MESSAGE_INVALID)
      else if negb (Direction_eqb (direction msg) A_TO_B)
      then Ok (state, MESSAGE_INVALID)
      else Ok (CONNECTING, MESSAGE_VALID)
  | CONNECTING =>
      if negb (strcmp text CONNECT_OK =? 0) then reset_invalid
      else if negb (Direction_eqb (direction msg) B_TO_A) then reset_invalid
      else Ok (CONNECTED, MESSAGE_VALID)
  | CONNECTED =>
      if negb (Direction_eqb (direction msg) A_TO_B) then reset_invalid
      else if (strcmp text GET_DATA =? 0) || (strcmp text GET_FILE =? 0)
              || (strcmp text GET_COMMAND =? 0)
      then Ok (WAITING_DATA, MESSAGE_VALID)
      else if strcmp text DISCONNECT =? 0 then Ok (DISCONNECTING, MESSAGE_VALID)
      else if strcmp text GET_B64 =? 0 then Ok (WAITING_B64_DATA, MESSAGE_VALID)
      else if strcmp text GET_VER =? 0 then Ok (WAITING_VER, MESSAGE_VALID)
      else Ok (state, MESSAGE_INVALID)
  | WAITING_VER =>
      if negb (Direction_eqb (direction msg) B_TO_A) then reset_invalid
      else if strncmp text VERSION 7 =? 0 then
        sep <- char_at text 7 ;;
        if negb (sep =? 32) then reset_invalid
        else
          digits <- version_loop (S (length text)) text 8 ;;
          if digits then Ok (CONNECTED, MESSAGE_VALID) else reset_invalid
      else reset_invalid
  | WAITING_DATA =>
      if negb (Direction_eqb (direction msg) B_TO_A) then reset_invalid
      else if strncmp text GET_DATA 8 =? 0 then data_reply text GET_DATA 8
      else if strncmp text GET_FILE 8 =? 0 then data_reply text GET_FILE 8
      else if strncmp text GET_COMMAND 11 =? 0 then data_reply text GET_COMMAND 11
      else (* break; falls to the final return *) Ok (state, MESSAGE_VALID)
  | WAITING_B64_DATA =>
      if negb (Direction_eqb (direction msg) B_TO_A) then reset_invalid
      else if negb (strncmp text B64 4 =? 0) then reset_invalid
      else
        sep <- char_at text 4 ;;
        if negb (sep =? 32) then reset_invalid
        else
          let initialPointer := 5%nat in
          stop <- b64_loop (S (length text)) text 5 ;;
          match stop with
          | None => reset_invalid
          | Some pointer => b64_tail text initialPointer pointer
          end
  | DISCONNECTING =>
      if negb (strcmp text DISCONNECT_OK =? 0) then reset_invalid
      else if negb (Direction_eqb (direction msg) B_TO_A) then reset_invalid
      else Ok (INIT, MESSAGE_VALID)
  end.

End Part000.

(** A message sent from A to B, and one sent from B to A. *)
Definition a_to_b (s : string) : Message :=
  {| direction := A_TO_B; text_message := str s |}.

Definition b_to_a (s : string) : Message :=
  {| direction := B_TO_A; text_message := str s |}.

(** * The character classes named by the specification *)

(** In the words of §4.1 and §9 of the specification, which ask for
    named predicates in place of the raw range comparisons and tables:
    lowercase letters, digits, the base64 alphabet and the alphabet of a
    data token. *)
Definition is_lowercase_ascii (c : Z) : bool := (97 <=? c) && (c <=? 122).
Definition is_uppercase_ascii (c : Z) : bool := (65 <=? c) && (c <=? 90).
Definition is_digit (c : Z) : bool := (48 <=? c) && (c <=? 57).

Definition is_base64_char (c : Z) : bool :=
  is_uppercase_ascii c || is_lowercase_ascii c || is_digit c
  || (c =? 43) || (c =? 47).

Definition is_data_char (c : Z) : bool :=
  is_lowercase_ascii c || is_digit c || (c =? 46).

(** A base64-shaped token in the words of §4.1: characters of the
    alphabet followed by zero, one or two ['='] that close the token,
    the whole of a length that is a positive multiple of 4. *)
Definition base64_shaped (tok : cstring) : Prop :=
  (exists body pad : cstring,
      tok = body ++ pad
      /\ Forall (fun c => is_base64_char c = true) body
      /\ (pad = [] \/ pad = [61] \/ pad = [61; 61]))
  /\ (0 < length tok)%nat
  /\ (length tok mod 4 = 0)%nat.

(** The same as a test on the last two characters and on those before
    them. *)
Definition padding_okb (a b : Z) : bool :=
  (is_base64_char a && (is_base64_char b || (b =? 61)))
  || ((a =? 61) && (b =? 61)).

Definition base64_shapedb (tok : cstring) : bool :=
  let n := length tok in
  (2 <=? n)%nat
  && forallb is_base64_char (firstn (n - 2) tok)
  && padding_okb (nth (n - 2) tok 0) (nth (n - 1) tok 0)
  && (n mod 4 =? 0)%nat.

(** [r] is the successful result [b]. *)
Definition result_is (r : result bool) (b : bool) : bool :=
  match r with
  | Ok b' => Bool.eqb b' b
  | Fault _ => false
  end.

(** * Messages and runs used in the statements *)

(** The reply ["B64: " ++ tok], sent from B to A. *)
Definition b64_reply (tok : cstring) : Message :=
  {| direction := B_TO_A; text_message := str "B64: " ++ tok |}.

(** The reply [CMD ++ " " ++ tok ++ " " ++ CMD], sent from B to A. *)
Definition data_reply_message (CMD tok : cstring) : Message :=
  {| direction := B_TO_A; text_message := CMD ++ [32] ++ tok ++ [32] ++ CMD |}.

(** Calling a validator on the messages of a list, one after the other,
    each call starting from the [state] the previous one left: the final
    [state] and the verdicts in order. *)
Fixpoint run (validate : State -> Message -> result (State * test_status))
  (state : State) (msgs : list Message) : result (State * list test_status) :=
  match msgs with
  | [] => Ok (state, [])
  | msg :: rest =>
      r <- validate state msg ;;
      r' <- run validate (fst r) rest ;;
      Ok (fst r', snd r :: snd r')
  end.

(** The verdict of a call, when the call returns. *)
Definition verdict (r : result (State * test_status)) : option test_status :=
  match r with
  | Ok (_, v) => Some v
  | Fault _ => None
  end.

(** * The scans as functions on the rest of the text *)

(** What the loops of [WAITING_DATA] compute, read off the characters
    from the cursor on: the index of the first space or NUL when every
    character before it satisfies [allowed], nothing when one does not. *)
Fixpoint scan_token (allowed : Z -> bool) (rest : cstring) (i : nat)
  : option nat :=
  match rest with
  | [] => Some i
  | c :: rest' =>
      if negb (c =? 32) && negb (c =? 0) then
        if allowed c then scan_token allowed rest' (S i) else None
      else Some i
  end.

(** A branch of [WAITING_DATA] with the loop replaced by what it
    computes; [Splpv1.data_reply] and [Part000.data_reply] are instances
    of it (lemmas [Splpv1_data_reply_scan] and
    [Part000_data_reply_scan]). *)
Definition data_reply_scan (allowed : Z -> bool) (text CMD : cstring) (n : nat)
  : result (State * test_status) :=
  sep <- char_at text n ;;
  if negb (sep =? 32) then reset_invalid
  else
    match scan_token allowed (skipn (S n) text) (S n) with
    | None => reset_invalid
    | Some i =>
        c <- char_at text i ;;
        if c =? 0 then reset_invalid
        else
          r <- strcmp_from text (i + 1) CMD ;;
          if negb (r =? 0) then reset_invalid
          else Ok (CONNECTED, MESSAGE_VALID)
    end.

(** The reply ["VERSION " ++ digits], sent in direction [d]. *)
Definition version_reply (d : Direction) (digits : cstring) : Message :=
  {| direction := d; text_message := VERSION ++ [32] ++ digits |}.

(** * Facts about the string primitives *)

Section CStrings.

Lemma char_at_lt (s : cstring) (i : nat) :
  (i < length s)%nat -> char_at s i = Ok (nth i s 0).
Proof.
  intros H. unfold char_at.
  destruct (Nat.compare_spec i (length s)); try lia. reflexivity.
Qed.

Lemma char_at_end (s : cstring) : char_at s (length s) = Ok 0.
Proof. unfold char_at. now rewrite Nat.compare_refl. Qed.

Lemma char_at_gt (s : cstring) (i : nat) :
  (length s < i)%nat -> char_at s i = Fault (ReadPastTerminator i).
Proof.
  intros H. unfold char_at.
  destruct (Nat.compare_spec i (length s)); try lia. reflexivity.
Qed.

(** A read that succeeds was at or before the terminator. *)
Lemma char_at_ok_le (s : cstring) (i : nat) (c : Z) :
  char_at s i = Ok c -> (i <= length s)%nat.
Proof.
  unfold char_at. destruct (Nat.compare_spec i (length s)); intros E;
    try discriminate; lia.
Qed.

(** A read that yields a character other than NUL was before it. *)
Lemma char_at_nonzero (s : cstring) (i : nat) (c : Z) :
  char_at s i = Ok c -> c <> 0 -> (i < length s)%nat /\ c = nth i s 0.
Proof.
  unfold char_at. destruct (Nat.compare_spec i (length s)); intros E Hc;
    inversion E; subst; try easy.
Qed.

Lemma char_at_app_right (p s : cstring) (k : nat) :
  char_at (p ++ s) (length p + k) = match char_at s k with
                                    | Ok c => Ok c
                                    | Fault _ =>
                                        Fault (ReadPastTerminator (length p + k))
                                    end.
Proof.
  unfold char_at. rewrite length_app.
  destruct (Nat.compare_spec k (length s));
    destruct (Nat.compare_spec (length p + k) (length p + length s));
    try lia; try reflexivity.
  rewrite app_nth2 by lia. do 2 f_equal. lia.
Qed.

Lemma ascii_text_nth (s : cstring) (i : nat) :
  ascii_text s -> (i < length s)%nat -> ascii_char (nth i s 0).
Proof.
  intros Hs Hi. unfold ascii_text in Hs. rewrite Forall_forall in Hs.
  apply Hs, nth_In, Hi.
Qed.

Lemma ascii_text_app (s1 s2 : cstring) :
  ascii_text (s1 ++ s2) <-> ascii_text s1 /\ ascii_text s2.
Proof. apply Forall_app. Qed.

Lemma ascii_textb_spec (s : cstring) : ascii_textb s = true <-> ascii_text s.
Proof.
  unfold ascii_textb, ascii_text. rewrite forallb_forall, Forall_forall.
  unfold ascii_charb, ascii_char.
  split; intros H c Hc; specialize (H c Hc); lia.
Qed.

Lemma skipn_nth_cons (s : cstring) (i : nat) :
  (i < length s)%nat -> skipn i s = nth i s 0 :: skipn (S i) s.
Proof.
  revert i. induction s as [|c s IH]; intros [|i] H; simpl in *; try lia.
  - reflexivity.
  - apply IH. lia.
Qed.

End CStrings.

(** * The scan of [WAITING_B64_DATA] *)

Section Base64Scan.

(** From an index [i] at least two characters before the terminator,
    the loop of [src/splpv1.c] stops two characters before the
    terminator when everything it passed is in the alphabet, and
    returns from inside otherwise. *)
Lemma Splpv1_b64_loop_spec (fuel : nat) (text : cstring) (i : nat) :
  ascii_text text ->
  (i + 2 <= length text)%nat ->
  (length text < fuel + i + 2)%nat ->
  Splpv1.b64_loop fuel text i =
    if forallb Splpv1.b64_char (firstn (length text - 2 - i) (skipn i text))
    then Ok (Some (length text - 2)%nat)
    else Ok None.
Proof.
  intros Htext. revert i.
  induction fuel as [|fuel IH]; intros i Hi Hfuel; [lia|].
  cbn [Splpv1.b64_loop].
  destruct (Nat.eq_dec (i + 2) (length text)) as [Hend|Hmore].
  - rewrite Hend, char_at_end. cbn.
    replace (length text - 2 - i)%nat with 0%nat by lia. cbn.
    do 2 f_equal. lia.
  - rewrite (char_at_lt text (i + 2)) by lia. cbn [bind].
    pose proof (ascii_text_nth text (i + 2) Htext ltac:(lia)) as Hc.
    unfold ascii_char in Hc.
    destruct (Z.eqb_spec (nth (i + 2) text 0) 0) as [E|_]; [lia|].
    cbn [negb]. rewrite (char_at_lt text i) by lia. cbn [bind].
    rewrite (skipn_nth_cons text i) by lia.
    replace (length text - 2 - i)%nat with (S (length text - 2 - S i)) by lia.
    cbn [firstn forallb].
    destruct (Splpv1.b64_char (nth i text 0)); cbn [negb andb].
    + apply IH; lia.
    + reflexivity.
Qed.

End Base64Scan.

Section CharacterClasses.

Ltac bool_cases :=
  repeat match goal with
    | |- context [?a <=? ?b] => destruct (Z.leb_spec a b)
    | |- context [?a <? ?b] => destruct (Z.ltb_spec a b)
    | |- context [?a =? ?b] => destruct (Z.eqb_spec a b)
    end; cbn; try reflexivity; try lia.

Lemma Splpv1_b64_char_spec (c : Z) : Splpv1.b64_char c = is_base64_char c.
Proof.
  unfold Splpv1.b64_char, is_base64_char, is_uppercase_ascii,
    is_lowercase_ascii, is_digit.
  bool_cases.
Qed.

Lemma Splpv1_b64_char_or_equals_spec (c : Z) :
  Splpv1.b64_char_or_equals c = is_base64_char c || (c =? 61).
Proof.
  unfold Splpv1.b64_char_or_equals, is_base64_char, is_uppercase_ascii,
    is_lowercase_ascii, is_digit.
  bool_cases.
Qed.

(** The range of [src/splpv1.c] for a data token reaches 59, and so
    takes in [':'] (58) and [';'] (59). *)
Lemma Splpv1_data_char_spec (c : Z) :
  Splpv1.data_char c = is_data_char c || (c =? 58) || (c =? 59).
Proof.
  unfold Splpv1.data_char, is_data_char, is_lowercase_ascii, is_digit.
  bool_cases.
Qed.

Lemma equals_not_base64 (c : Z) : c = 61 -> is_base64_char c = false.
Proof. intros ->. reflexivity. Qed.

(** Checking a property of the 128 table indices one by one. *)
Lemma for_all_table_indices (P : Z -> bool) :
  forallb (fun n => P (Z.of_nat n)) (seq 0 128) = true ->
  forall c, 0 <= c < 128 -> P c = true.
Proof.
  intros H c Hc. rewrite forallb_forall in H.
  specialize (H (Z.to_nat c)). rewrite Z2Nat.id in H by lia.
  apply H, in_seq. lia.
Qed.

Lemma result_is_true (r : result bool) (b : bool) :
  result_is r b = true -> r = Ok b.
Proof.
  destruct r as [b'|f]; cbn; [|discriminate].
  intros H. apply Bool.eqb_prop in H. now subst.
Qed.

Lemma table_spec (c : Z) :
  0 <= c < 128 -> Part000.table_at Part000.table c = Ok (is_data_char c).
Proof.
  intros Hc. apply result_is_true.
  revert c Hc. apply for_all_table_indices. vm_compute. reflexivity.
Qed.

Lemma tableBase64_spec (c : Z) :
  0 <= c < 128 ->
  Part000.table_at Part000.tableBase64 c = Ok (is_base64_char c).
Proof.
  intros Hc. apply result_is_true.
  revert c Hc. apply for_all_table_indices. vm_compute. reflexivity.
Qed.

Lemma tableBase64WithEquals_spec (c : Z) :
  0 <= c < 128 ->
  Part000.table_at Part000.tableBase64WithEquals c
  = Ok (is_base64_char c || (c =? 61)).
Proof.
  intros Hc. apply result_is_true.
  revert c Hc. apply for_all_table_indices. vm_compute. reflexivity.
Qed.

End CharacterClasses.

(** * The two copies on the base64 reply *)

Section Base64Copies.

Lemma char_at_range (text : cstring) (i : nat) (c : Z) :
  ascii_text text -> char_at text i = Ok c -> 0 <= c < 128.
Proof.
  intros Htext E.
  destruct (Z.eq_dec c 0) as [->|Hc]; [lia|].
  destruct (char_at_nonzero text i c E Hc) as [Hi ->].
  pose proof (ascii_text_nth text i Htext Hi) as H.
  unfold ascii_char in H. lia.
Qed.

Lemma rem_4_eqb (a : Z) : (Z.rem a 4 =? 0) = (a mod 4 =? 0).
Proof.
  destruct (Z.eqb_spec (Z.rem a 4) 0) as [E|E];
    destruct (Z.eqb_spec (a mod 4) 0) as [E'|E']; try reflexivity.
  - exfalso. apply E'. apply Z.rem_divide in E; [|lia].
    apply Z.mod_divide; [lia|exact E].
  - exfalso. apply E. apply Z.mod_divide in E'; [|lia].
    apply Z.rem_divide; [lia|exact E'].
Qed.

(** On an ASCII text the table lookups of [part_000] never leave the
    tables, and its scan is the scan of [src/splpv1.c]. *)
Lemma Part000_b64_loop_eq (fuel : nat) (text : cstring) (i : nat) :
  ascii_text text ->
  Part000.b64_loop fuel text i = Splpv1.b64_loop fuel text i.
Proof.
  intros Htext. revert i.
  induction fuel as [|fuel IH]; intros i; [reflexivity|].
  cbn [Part000.b64_loop Splpv1.b64_loop].
  destruct (char_at text (i + 2)) as [ahead|f]; [|reflexivity].
  cbn [bind]. destruct (negb (ahead =? 0)); [|reflexivity].
  destruct (char_at text i) as [c|f] eqn:Ec; [|reflexivity].
  cbn [bind].
  rewrite (tableBase64_spec c (char_at_range text i c Htext Ec)).
  cbn [bind]. rewrite Splpv1_b64_char_spec.
  destruct (is_base64_char c); cbn [negb]; [apply IH|reflexivity].
Qed.

Lemma Part000_b64_tail_eq (text : cstring) (i : nat) :
  ascii_text text ->
  Part000.b64_tail text 5 i = Splpv1.b64_tail text i.
Proof.
  intros Htext. unfold Part000.b64_tail, Splpv1.b64_tail.
  destruct (char_at text i) as [c|f] eqn:Ec; [|reflexivity].
  cbn [bind].
  rewrite (tableBase64_spec c (char_at_range text i c Htext Ec)).
  cbn [bind]. rewrite Splpv1_b64_char_spec.
  replace (Z.of_nat i + 2 - Z.of_nat 5) with (Z.of_nat i - 3) by lia.
  rewrite rem_4_eqb.
  destruct (is_base64_char c); cbn [negb].
  - destruct (char_at text (i + 1)) as [c1|f] eqn:Ec1; [|reflexivity].
    cbn [bind].
    rewrite (tableBase64WithEquals_spec c1 (char_at_range text _ c1 Htext Ec1)).
    rewrite Splpv1_b64_char_or_equals_spec. reflexivity.
  - reflexivity.
Qed.

Lemma Part000_b64_reply_eq (msg : Message) :
  ascii_text (text_message msg) ->
  Part000.validate_message WAITING_B64_DATA msg
  = Splpv1.validate_message WAITING_B64_DATA msg.
Proof.
  intros Htext. unfold Part000.validate_message, Splpv1.validate_message.
  destruct (negb (Direction_eqb (direction msg) B_TO_A)); [reflexivity|].
  destruct (negb (strncmp (text_message msg) B64 4 =? 0)); [reflexivity|].
  destruct (char_at (text_message msg) 4) as [sep|f]; [|reflexivity].
  cbn [bind]. destruct (negb (sep =? 32)); [reflexivity|].
  rewrite Part000_b64_loop_eq by exact Htext.
  destruct (Splpv1.b64_loop _ _ _) as [[i|]|f]; cbn [bind]; try reflexivity.
  apply Part000_b64_tail_eq, Htext.
Qed.

End Base64Copies.

(** * The base64 reply in [src/splpv1.c] *)

Section Base64Reply.

Lemma forallb_b64_char (s : cstring) :
  forallb Splpv1.b64_char s = forallb is_base64_char s.
Proof.
  induction s as [|c s IH]; cbn; [reflexivity|].
  now rewrite Splpv1_b64_char_spec, IH.
Qed.

Lemma of_nat_mod_4_eqb (n : nat) :
  (Z.of_nat n mod 4 =? 0) = (n mod 4 =? 0)%nat.
Proof.
  change 4 with (Z.of_nat 4). rewrite <- Nat2Z.inj_mod.
  destruct (Nat.eqb_spec (n mod 4) 0) as [E|E];
    destruct (Z.eqb_spec (Z.of_nat (n mod 4)) 0) as [E'|E']; try reflexivity; lia.
Qed.

Lemma Splpv1_b64_reply (tok : cstring) :
  ascii_text tok ->
  Splpv1.validate_message WAITING_B64_DATA (b64_reply tok) =
    if (length tok <? 2)%nat then Fault (ReadPastTerminator 7)
    else if base64_shapedb tok then Ok (CONNECTED, MESSAGE_VALID)
    else reset_invalid.
Proof.
  intros Htok.
  unfold Splpv1.validate_message, b64_reply.
  cbn [direction text_message Direction_eqb negb].
  change (str "B64: " ++ tok) with ([66; 54; 52; 58; 32] ++ tok).
  set (pre := [66; 54; 52; 58; 32]).
  assert (Hpre : ascii_text pre) by (apply ascii_textb_spec; reflexivity).
  assert (Htext : ascii_text (pre ++ tok)) by (apply ascii_text_app; now split).
  assert (Hlen : length (pre ++ tok) = (5 + length tok)%nat)
    by (rewrite length_app; reflexivity).
  assert (Hat : forall k, (k < length tok)%nat ->
                          char_at (pre ++ tok) (5 + k) = Ok (nth k tok 0)).
  { intros k Hk. rewrite (char_at_app_right pre tok k : char_at (pre ++ tok) (5 + k) = _).
    now rewrite char_at_lt. }
  change (strncmp (pre ++ tok) B64 4) with 0.
  rewrite (char_at_lt (pre ++ tok) 4) by lia.
  change (nth 4 (pre ++ tok) 0) with 32.
  cbn [bind Z.eqb negb].
  destruct (Nat.ltb_spec (length tok) 2) as [Hshort|Hlong].
  - cbn [Splpv1.b64_loop]. rewrite char_at_gt by lia. reflexivity.
  - rewrite Splpv1_b64_loop_spec by (try exact Htext; lia).
    change (skipn 5 (pre ++ tok)) with tok.
    replace (length (pre ++ tok) - 2 - 5)%nat with (length tok - 2)%nat by lia.
    replace (length (pre ++ tok) - 2)%nat with (5 + (length tok - 2))%nat by lia.
    unfold base64_shapedb.
    destruct (Nat.leb_spec 2 (length tok)) as [_|]; [|lia].
    rewrite forallb_b64_char.
    destruct (forallb is_base64_char (firstn (length tok - 2) tok));
      cbn [bind andb]; [|reflexivity].
    unfold Splpv1.b64_tail.
    rewrite Hat by lia. cbn [bind].
    replace (5 + (length tok - 2) + 1)%nat with (5 + (length tok - 1))%nat by lia.
    rewrite Hat by lia.
    replace (Z.of_nat (5 + (length tok - 2)) - 3) with (Z.of_nat (length tok)) by lia.
    rewrite of_nat_mod_4_eqb.
    rewrite Splpv1_b64_char_spec.
    unfold padding_okb.
    set (a := nth (length tok - 2) tok 0). set (b := nth (length tok - 1) tok 0).
    destruct (is_base64_char a) eqn:Ea; cbn [negb bind andb orb].
    + rewrite Splpv1_b64_char_or_equals_spec.
      destruct (Z.eqb_spec a 61) as [E|_].
      { rewrite (equals_not_base64 a E) in Ea. discriminate. }
      cbn [andb orb]. rewrite orb_false_r.
      destruct (is_base64_char b || (b =? 61)); cbn [negb];
        destruct (length tok mod 4 =? 0)%nat; reflexivity.
    + destruct (a =? 61); cbn [bind andb].
      * destruct (b =? 61); cbn [negb];
          destruct (length tok mod 4 =? 0)%nat; reflexivity.
      * reflexivity.
Qed.

End Base64Reply.

(** * The shape of a base64 token *)

Section Base64Shape.

Lemma last_two (s : cstring) :
  (2 <= length s)%nat ->
  s = firstn (length s - 2) s
        ++ [nth (length s - 2) s 0; nth (length s - 1) s 0].
Proof.
  intros H.
  rewrite <- (firstn_skipn (length s - 2) s) at 1. f_equal.
  rewrite (skipn_nth_cons s (length s - 2)) by lia.
  replace (S (length s - 2)) with (length s - 1)%nat by lia.
  rewrite (skipn_nth_cons s (length s - 1)) by lia.
  replace (S (length s - 1)) with (length s) by lia.
  now rewrite skipn_all.
Qed.

Lemma forallb_Forall (P : Z -> bool) (s : cstring) :
  forallb P s = true <-> Forall (fun c => P c = true) s.
Proof. now rewrite forallb_forall, Forall_forall. Qed.

Lemma base64_shapedb_spec (tok : cstring) :
  base64_shapedb tok = true <-> base64_shaped tok.
Proof.
  unfold base64_shapedb, base64_shaped.
  set (n := length tok).
  set (front := firstn (n - 2) tok).
  set (a := nth (n - 2) tok 0). set (b := nth (n - 1) tok 0).
  assert (Hsplit : (2 <= n)%nat -> tok = front ++ [a; b]) by apply last_two.
  clearbody front a b n.
  split.
  - intros H. repeat (apply andb_prop in H; destruct H as [H ?]).
    rename H into Hn, H2 into Hfront, H1 into Hpad, H0 into Hmod.
    apply Nat.leb_le in Hn. apply Nat.eqb_eq in Hmod.
    apply forallb_Forall in Hfront.
    pose proof (Hsplit Hn) as Htok.
    split; [|lia].
    unfold padding_okb in Hpad. apply orb_prop in Hpad.
    destruct Hpad as [Hpad|Hpad]; apply andb_prop in Hpad;
      destruct Hpad as [Ha Hb].
    + apply orb_prop in Hb. destruct Hb as [Hb|Hb].
      * exists tok, []. rewrite app_nil_r. repeat split; [|now left].
        rewrite Htok. apply Forall_app. split; [exact Hfront|].
        repeat constructor; assumption.
      * apply Z.eqb_eq in Hb. exists (front ++ [a]), [61].
        repeat split; [| |now right; left].
        -- rewrite Htok at 1. rewrite <- app_assoc, Hb. reflexivity.
        -- apply Forall_app. split; [exact Hfront|]. now repeat constructor.
    + apply Z.eqb_eq in Ha, Hb. exists front, [61; 61].
      repeat split; [| |now right; right]; [|exact Hfront].
      rewrite Htok at 1. now rewrite Ha, Hb.
  - intros [(body & pad & Htok & Hbody & Hpad) [Hpos Hmod]].
    assert (Hn : (2 <= n)%nat).
    { destruct n as [|[|[|[|n']]]]; cbn in Hmod; try discriminate; lia. }
    specialize (Hsplit Hn).
    assert (Hgoal : Forall (fun c => is_base64_char c = true) front
                    /\ padding_okb a b = true).
    { unfold padding_okb.
      destruct Hpad as [Hpad|[Hpad|Hpad]]; rewrite Hpad in Htok.
      - rewrite app_nil_r in Htok. rewrite <- Htok, Hsplit in Hbody.
        apply Forall_app in Hbody. destruct Hbody as [Hf Hab].
        apply Forall_cons_iff in Hab. destruct Hab as [Ha Hb'].
        apply Forall_cons_iff in Hb'. destruct Hb' as [Hb _].
        split; [exact Hf|]. now rewrite Ha, Hb.
      - rewrite Hsplit in Htok.
        change (front ++ [a; b]) with (front ++ [a] ++ [b]) in Htok.
        rewrite app_assoc in Htok. apply app_inj_tail in Htok.
        destruct Htok as [Hb' Hb]. rewrite <- Hb' in Hbody.
        apply Forall_app in Hbody. destruct Hbody as [Hf Ha].
        apply Forall_cons_iff in Ha. destruct Ha as [Ha _].
        split; [exact Hf|]. rewrite Ha, Hb. reflexivity.
      - rewrite Hsplit in Htok.
        change (front ++ [a; b]) with (front ++ [a] ++ [b]) in Htok.
        change (body ++ [61; 61]) with (body ++ [61] ++ [61]) in Htok.
        rewrite !app_assoc in Htok. apply app_inj_tail in Htok.
        destruct Htok as [Htok Hb]. apply app_inj_tail in Htok.
        destruct Htok as [Hf Ha]. rewrite <- Hf in Hbody.
        split; [exact Hbody|]. rewrite Ha, Hb. reflexivity. }
    destruct Hgoal as [Hf Hp].
    apply forallb_Forall in Hf. rewrite Hf, Hp, Hmod.
    apply Nat.leb_le in Hn. now rewrite Hn.
Qed.

End Base64Shape.

(** * [strcmp] and [strncmp] on ASCII texts *)

Section Comparisons.

Lemma strcmp_refl (s : cstring) : strcmp s s = 0.
Proof.
  induction s as [|c s IH]; cbn; [reflexivity|].
  now rewrite Z.eqb_refl.
Qed.

Lemma strcmp_zero (s1 s2 : cstring) :
  ascii_text s1 -> ascii_text s2 -> strcmp s1 s2 = 0 -> s1 = s2.
Proof.
  intros H1. revert s2.
  induction H1 as [|c1 r1 Hc1 H1 IH]; intros s2 H2 E;
    destruct H2 as [|c2 r2 Hc2 H2]; cbn in E; unfold ascii_char in *;
    try reflexivity; try lia.
  destruct (Z.eqb_spec c1 c2) as [->|Hne]; [|lia].
  f_equal. apply IH; assumption.
Qed.

Lemma strcmp_zero_iff (s1 s2 : cstring) :
  ascii_text s1 -> ascii_text s2 -> strcmp s1 s2 = 0 <-> s1 = s2.
Proof.
  intros H1 H2. split; [now apply strcmp_zero|].
  intros ->. apply strcmp_refl.
Qed.

(** [strncmp(s, lit, strlen(lit)) == 0] says that [s] begins with
    [lit]. *)
Lemma strncmp_zero (s lit : cstring) :
  ascii_text lit ->
  strncmp s lit (length lit) = 0 -> exists rest, s = lit ++ rest.
Proof.
  intros Hlit. revert s.
  induction Hlit as [|c lit Hc Hlit IH]; intros s E.
  - exists s. reflexivity.
  - destruct s as [|c1 s]; cbn in E; unfold ascii_char in *; [lia|].
    destruct (Z.eqb_spec c1 c) as [->|Hne]; [|lia].
    destruct (IH s E) as [rest ->]. exists rest. reflexivity.
Qed.

Lemma strncmp_prefix (lit rest : cstring) :
  strncmp (lit ++ rest) lit (length lit) = 0.
Proof.
  induction lit as [|c lit IH]; cbn; [reflexivity|].
  now rewrite Z.eqb_refl.
Qed.

End Comparisons.

(** * The scans of [WAITING_DATA] and [WAITING_VER] *)

Section TokenScans.

(** The index loop of [src/splpv1.c] computes [scan_token] on the rest
    of the text, and never reads past the terminator. *)
Lemma Splpv1_data_loop_scan (fuel : nat) (text : cstring) (i : nat) :
  (i <= length text)%nat ->
  (length text < fuel + i)%nat ->
  Splpv1.data_loop fuel text i
  = Ok (scan_token Splpv1.data_char (skipn i text) i).
Proof.
  revert i. induction fuel as [|fuel IH]; intros i Hi Hfuel; [lia|].
  cbn [Splpv1.data_loop].
  destruct (Nat.eq_dec i (length text)) as [->|Hne].
  - rewrite char_at_end, skipn_all. reflexivity.
  - rewrite char_at_lt, (skipn_nth_cons text i) by lia.
    cbn [bind scan_token].
    destruct (negb (nth i text 0 =? 32) && negb (nth i text 0 =? 0));
      [|reflexivity].
    destruct (Splpv1.data_char (nth i text 0)); cbn [negb]; [|reflexivity].
    apply IH; lia.
Qed.

(** So does the pointer loop of [part_000] on an ASCII text, with the
    alphabet of the specification: its table is never left. *)
Lemma Part000_data_loop_scan (fuel : nat) (text : cstring) (pointer : nat) :
  ascii_text text ->
  (pointer <= length text)%nat ->
  (length text < fuel + pointer)%nat ->
  Part000.data_loop fuel text pointer
  = Ok (scan_token is_data_char (skipn pointer text) pointer).
Proof.
  intros Htext. revert pointer.
  induction fuel as [|fuel IH]; intros i Hi Hfuel; [lia|].
  cbn [Part000.data_loop].
  destruct (Nat.eq_dec i (length text)) as [->|Hne].
  - rewrite char_at_end, skipn_all. reflexivity.
  - rewrite char_at_lt, (skipn_nth_cons text i) by lia.
    cbn [bind scan_token].
    destruct (negb (nth i text 0 =? 32) && negb (nth i text 0 =? 0));
      [|reflexivity].
    pose proof (ascii_text_nth text i Htext ltac:(lia)) as Hc.
    unfold ascii_char in Hc.
    rewrite table_spec by lia. cbn [bind].
    destruct (is_data_char (nth i text 0)); cbn [negb]; [|reflexivity].
    apply IH; lia.
Qed.

(** Where a scan stops. *)
Lemma scan_token_stop (allowed : Z -> bool) (rest : cstring) (i j : nat) :
  scan_token allowed rest i = Some j ->
  (i <= j <= i + length rest)%nat
  /\ forallb allowed (firstn (j - i) rest) = true
  /\ (nth (j - i) rest 0 = 32 \/ nth (j - i) rest 0 = 0).
Proof.
  revert i. induction rest as [|c rest IH]; intros i E; cbn in E.
  - inversion E; subst. rewrite Nat.sub_diag. cbn. repeat split; auto; lia.
  - destruct (Z.eqb_spec c 32) as [E32|N32]; cbn in E.
    { inversion E; subst. rewrite Nat.sub_diag. cbn. repeat split; auto; lia. }
    destruct (Z.eqb_spec c 0) as [E0|N0]; cbn in E.
    { inversion E; subst. rewrite Nat.sub_diag. cbn. repeat split; auto; lia. }
    destruct (allowed c) eqn:Ec; [|discriminate].
    destruct (IH _ E) as (Hj & Hall & Hstop).
    replace (j - i)%nat with (S (j - S i)) by lia.
    cbn [firstn forallb nth length]. rewrite Ec, Hall.
    repeat split; auto; lia.
Qed.

(** A scan over allowed characters, none of them a space or NUL, runs to
    what follows them. *)
Lemma scan_token_app (allowed : Z -> bool) (tok rest : cstring) (i : nat) :
  forallb allowed tok = true ->
  forallb (fun c => negb (c =? 32) && negb (c =? 0)) tok = true ->
  scan_token allowed (tok ++ rest) i
  = scan_token allowed rest (i + length tok).
Proof.
  revert i. induction tok as [|c tok IH]; intros i Hall Hsep; cbn.
  - now rewrite Nat.add_0_r.
  - cbn in Hall, Hsep. apply andb_prop in Hall, Hsep.
    destruct Hall as [Hc Hall], Hsep as [Hs Hsep].
    rewrite Hs, Hc, IH by assumption. f_equal. lia.
Qed.

(** The loop of [WAITING_VER] tests that the rest of an ASCII text is
    made of digits; it never reads past the terminator. *)
Lemma version_loop_digits (fuel : nat) (text : cstring) (i : nat) :
  ascii_text text ->
  (i <= length text)%nat ->
  (length text < fuel + i)%nat ->
  version_loop fuel text i = Ok (forallb is_digit (skipn i text)).
Proof.
  intros Htext. revert i.
  induction fuel as [|fuel IH]; intros i Hi Hfuel; [lia|].
  cbn [version_loop].
  destruct (Nat.eq_dec i (length text)) as [->|Hne].
  - rewrite char_at_end, skipn_all. reflexivity.
  - rewrite char_at_lt, (skipn_nth_cons text i) by lia.
    cbn [bind forallb].
    pose proof (ascii_text_nth text i Htext ltac:(lia)) as Hc.
    unfold ascii_char in Hc. set (c := nth i text 0) in *.
    destruct (Z.eqb_spec c 0) as [E|_]; [lia|].
    replace (negb ((48 <=? c) && (c <? 58)) || (c =? 32))
      with (negb (is_digit c)).
    + destruct (is_digit c); cbn [negb andb]; [apply IH; lia|reflexivity].
    + unfold is_digit.
      destruct (Z.leb_spec 48 c), (Z.ltb_spec c 58), (Z.leb_spec c 57),
        (Z.eqb_spec c 32); cbn; try reflexivity; lia.
Qed.

End TokenScans.

(** * The data reply *)

Section DataReply.

Lemma Splpv1_data_reply_scan (text CMD : cstring) (n : nat) :
  Splpv1.data_reply text CMD n
  = data_reply_scan Splpv1.data_char text CMD n.
Proof.
  unfold Splpv1.data_reply, data_reply_scan.
  destruct (char_at text n) as [sep|f] eqn:Esep; [|reflexivity].
  cbn [bind]. destruct (Z.eqb_spec sep 32) as [->|]; [|reflexivity].
  cbn [negb].
  destruct (char_at_nonzero text n 32 Esep ltac:(lia)) as [Hn _].
  rewrite Splpv1_data_loop_scan by lia. reflexivity.
Qed.

Lemma Part000_data_reply_scan (text CMD : cstring) (n : nat) :
  ascii_text text ->
  Part000.data_reply text CMD n = data_reply_scan is_data_char text CMD n.
Proof.
  intros Htext. unfold Part000.data_reply, data_reply_scan.
  destruct (char_at text n) as [sep|f] eqn:Esep; [|reflexivity].
  cbn [bind]. destruct (Z.eqb_spec sep 32) as [->|]; [|reflexivity].
  cbn [negb].
  destruct (char_at_nonzero text n 32 Esep ltac:(lia)) as [Hn _].
  rewrite Part000_data_loop_scan by (try exact Htext; lia). reflexivity.
Qed.

Lemma skipn_app_right (p s : cstring) (k : nat) :
  skipn (length p + k) (p ++ s) = skipn k s.
Proof.
  rewrite skipn_app, skipn_all2 by lia.
  cbn. f_equal. lia.
Qed.

Lemma forallb_first_failure (P : Z -> bool) (s : cstring) :
  forallb P s = false ->
  exists good c tl, s = good ++ c :: tl /\ forallb P good = true /\ P c = false.
Proof.
  induction s as [|c s IH]; cbn; [discriminate|].
  destruct (P c) eqn:Ec; cbn.
  - intros H. destruct (IH H) as (good & c' & tl & -> & Hg & Hc').
    exists (c :: good), c', tl. cbn. now rewrite Ec, Hg.
  - intros _. exists [], c, s. now rewrite Ec.
Qed.

Lemma allowed_not_separator (P : Z -> bool) (s : cstring) :
  P 32 = false -> ascii_text s -> forallb P s = true ->
  forallb (fun c => negb (c =? 32) && negb (c =? 0)) s = true.
Proof.
  intros H32 Hs. induction Hs as [|c s Hc Hs IH]; cbn; [reflexivity|].
  intros H. apply andb_prop in H. destruct H as [HPc Hall].
  rewrite (IH Hall), andb_true_r. unfold ascii_char in Hc.
  destruct (Z.eqb_spec c 32) as [->|_]; [congruence|].
  destruct (Z.eqb_spec c 0) as [->|_]; [lia|]. reflexivity.
Qed.

Lemma char_at_app_head (p : cstring) (c : Z) (s : cstring) :
  char_at (p ++ c :: s) (length p) = Ok c.
Proof.
  rewrite <- (Nat.add_0_r (length p)) at 1.
  rewrite char_at_app_right. reflexivity.
Qed.

Lemma skipn_app_tail (p s : cstring) : skipn (length p) (p ++ s) = s.
Proof.
  rewrite <- (Nat.add_0_r (length p)) at 1. apply skipn_app_right.
Qed.

(** A reply [CMD], space, [tok], space, [CMD] is accepted by a branch
    exactly when every character of [tok] is allowed, whatever [tok]
    is, provided the space itself is not an allowed character. *)
Lemma data_reply_scan_spec (allowed : Z -> bool) (CMD tok : cstring) :
  allowed 32 = false ->
  ascii_text CMD -> ascii_text tok ->
  data_reply_scan allowed (CMD ++ [32] ++ tok ++ [32] ++ CMD) CMD (length CMD)
  = if forallb allowed tok then Ok (CONNECTED, MESSAGE_VALID)
    else reset_invalid.
Proof.
  intros H32 HCMD Htok. unfold data_reply_scan.
  set (text := CMD ++ [32] ++ tok ++ [32] ++ CMD).
  assert (Esep : char_at text (length CMD) = Ok 32)
    by apply char_at_app_head.
  rewrite Esep. cbn [bind]. rewrite Z.eqb_refl. cbn [negb].
  assert (Erest : skipn (S (length CMD)) text = tok ++ [32] ++ CMD).
  { unfold text. rewrite <- (Nat.add_1_r (length CMD)).
    rewrite skipn_app_right. reflexivity. }
  rewrite Erest.
  destruct (forallb allowed tok) eqn:Hall.
  - rewrite scan_token_app
      by (try apply (allowed_not_separator allowed); assumption).
    cbn [app scan_token]. rewrite Z.eqb_refl. cbn [negb andb].
    assert (Etext : text = (CMD ++ 32 :: tok) ++ 32 :: CMD)
      by (unfold text; now rewrite <- app_assoc).
    assert (Elen : (S (length CMD) + length tok)%nat
                   = length (CMD ++ 32 :: tok))
      by (rewrite length_app; cbn; lia).
    rewrite Elen, Etext, char_at_app_head. cbn [bind].
    change (32 =? 0) with false. cbn iota.
    unfold strcmp_from.
    replace ((CMD ++ 32 :: tok) ++ 32 :: CMD)
      with (((CMD ++ 32 :: tok) ++ [32]) ++ CMD)
      by (now rewrite <- app_assoc).
    replace (Nat.add (length (CMD ++ 32 :: tok)) 1%nat)
      with (length ((CMD ++ 32 :: tok) ++ [32]))
      by (rewrite (length_app _ [32]); reflexivity).
    rewrite skipn_app_tail, strcmp_refl.
    destruct (Nat.leb_spec (length ((CMD ++ 32 :: tok) ++ [32]))
                (length (((CMD ++ 32 :: tok) ++ [32]) ++ CMD)))
      as [_|Hlt]; [reflexivity|].
    rewrite (length_app _ CMD) in Hlt. lia.
  - destruct (forallb_first_failure allowed tok Hall)
      as (good & c & tl & Etok & Hgood & Hc).
    rewrite Etok in Htok. apply ascii_text_app in Htok.
    destruct Htok as [Hg Htl]. apply Forall_cons_iff in Htl.
    destruct Htl as [Hca Htl]. unfold ascii_char in Hca.
    rewrite Etok, <- app_assoc.
    rewrite scan_token_app
      by (try apply (allowed_not_separator allowed); assumption).
    cbn [app scan_token].
    destruct (Z.eqb_spec c 0) as [->|_]; [lia|].
    destruct (Z.eqb_spec c 32) as [->|Hnsp]; cbn [negb andb].
    + assert (Etext : text = (CMD ++ 32 :: good) ++ 32 :: tl ++ 32 :: CMD).
      { unfold text. rewrite Etok. cbn [app].
        now rewrite <- !app_assoc. }
      assert (Elen : (S (length CMD) + length good)%nat
                     = length (CMD ++ 32 :: good))
        by (rewrite length_app; cbn; lia).
      rewrite Elen, Etext, char_at_app_head. cbn [bind].
      change (32 =? 0) with false. cbn iota.
      unfold strcmp_from.
      replace ((CMD ++ 32 :: good) ++ 32 :: tl ++ 32 :: CMD)
        with (((CMD ++ 32 :: good) ++ [32]) ++ tl ++ 32 :: CMD)
        by (now rewrite <- app_assoc).
      replace (Nat.add (length (CMD ++ 32 :: good)) 1%nat)
        with (length ((CMD ++ 32 :: good) ++ [32]))
        by (rewrite (length_app _ [32]); reflexivity).
      rewrite skipn_app_tail.
      destruct (Nat.leb_spec (length ((CMD ++ 32 :: good) ++ [32]))
                  (length (((CMD ++ 32 :: good) ++ [32]) ++ tl ++ 32 :: CMD)))
        as [_|Hlt].
      * cbn [bind].
        destruct (Z.eqb_spec (strcmp (tl ++ 32 :: CMD) CMD) 0) as [E|_];
          [|reflexivity].
        apply strcmp_zero in E; [| |exact HCMD].
        -- apply (f_equal (@length Z)) in E. rewrite length_app in E.
           cbn in E. lia.
        -- apply ascii_text_app. split; [exact Htl|].
           constructor; [unfold ascii_char; lia|exact HCMD].
      * rewrite (length_app _ (tl ++ 32 :: CMD)) in Hlt. lia.
    + rewrite Hc. reflexivity.
Qed.

End DataReply.

(** * The replies of [WAITING_DATA] and [WAITING_VER], message by message *)

Section Replies.

Lemma ascii_literals :
  ascii_text GET_DATA /\ ascii_text GET_FILE /\ ascii_text GET_COMMAND
  /\ ascii_text VERSION /\ ascii_text B64.
Proof. repeat split; apply ascii_textb_spec; reflexivity. Qed.

Lemma ascii_data_reply (CMD tok : cstring) :
  ascii_text CMD -> ascii_text tok ->
  ascii_text (text_message (data_reply_message CMD tok)).
Proof.
  intros HCMD Htok. cbn [text_message data_reply_message].
  repeat (apply ascii_text_app; split); try assumption;
    repeat constructor; unfold ascii_char; lia.
Qed.

(** In [src/splpv1.c] a reply [CMD tok CMD] to one of the three
    commands is valid exactly when every character of [tok] passes the
    range test of the loop, and resets the state otherwise. *)
Lemma Splpv1_data_reply_message (CMD tok : cstring) :
  In CMD [GET_DATA; GET_FILE; GET_COMMAND] ->
  ascii_text tok ->
  Splpv1.validate_message WAITING_DATA (data_reply_message CMD tok)
  = if forallb Splpv1.data_char tok then Ok (CONNECTED, MESSAGE_VALID)
    else reset_invalid.
Proof.
  intros HCMD Htok.
  destruct ascii_literals as (Hd & Hf & Hc & _).
  unfold Splpv1.validate_message.
  cbn [direction text_message data_reply_message Direction_eqb negb].
  destruct HCMD as [<-|[<-|[<-|[]]]].
  - change (strncmp (GET_DATA ++ [32] ++ tok ++ [32] ++ GET_DATA) GET_DATA 8)
      with 0.
    cbn [Z.eqb]. rewrite Splpv1_data_reply_scan.
    now apply (data_reply_scan_spec Splpv1.data_char GET_DATA tok).
  - change (strncmp (GET_FILE ++ [32] ++ tok ++ [32] ++ GET_FILE) GET_DATA 8)
      with 2.
    change (strncmp (GET_FILE ++ [32] ++ tok ++ [32] ++ GET_FILE) GET_FILE 8)
      with 0.
    cbn [Z.eqb]. rewrite Splpv1_data_reply_scan.
    now apply (data_reply_scan_spec Splpv1.data_char GET_FILE tok).
  - change (strncmp (GET_COMMAND ++ [32] ++ tok ++ [32] ++ GET_COMMAND)
              GET_DATA 8) with (-1).
    change (strncmp (GET_COMMAND ++ [32] ++ tok ++ [32] ++ GET_COMMAND)
              GET_FILE 8) with (-3).
    change (strncmp (GET_COMMAND ++ [32] ++ tok ++ [32] ++ GET_COMMAND)
              GET_COMMAND 11) with 0.
    cbn [Z.eqb]. rewrite Splpv1_data_reply_scan.
    now apply (data_reply_scan_spec Splpv1.data_char GET_COMMAND tok).
Qed.

(** In [part_000] the test is the alphabet of the specification. *)
Lemma Part000_data_reply_message (CMD tok : cstring) :
  In CMD [GET_DATA; GET_FILE; GET_COMMAND] ->
  ascii_text tok ->
  Part000.validate_message WAITING_DATA (data_reply_message CMD tok)
  = if forallb is_data_char tok then Ok (CONNECTED, MESSAGE_VALID)
    else reset_invalid.
Proof.
  intros HCMD Htok.
  destruct ascii_literals as (Hd & Hf & Hc & _).
  unfold Part000.validate_message.
  cbn [direction Direction_eqb negb].
  destruct HCMD as [<-|[<-|[<-|[]]]].
  - pose proof (ascii_data_reply GET_DATA tok Hd Htok) as Htext.
    cbn [text_message data_reply_message] in *.
    change (strncmp (GET_DATA ++ [32] ++ tok ++ [32] ++ GET_DATA) GET_DATA 8)
      with 0.
    cbn [Z.eqb]. rewrite Part000_data_reply_scan by exact Htext.
    now apply (data_reply_scan_spec is_data_char GET_DATA tok).
  - pose proof (ascii_data_reply GET_FILE tok Hf Htok) as Htext.
    cbn [text_message data_reply_message] in *.
    change (strncmp (GET_FILE ++ [32] ++ tok ++ [32] ++ GET_FILE) GET_DATA 8)
      with 2.
    change (strncmp (GET_FILE ++ [32] ++ tok ++ [32] ++ GET_FILE) GET_FILE 8)
      with 0.
    cbn [Z.eqb]. rewrite Part000_data_reply_scan by exact Htext.
    now apply (data_reply_scan_spec is_data_char GET_FILE tok).
  - pose proof (ascii_data_reply GET_COMMAND tok Hc Htok) as Htext.
    cbn [text_message data_reply_message] in *.
    change (strncmp (GET_COMMAND ++ [32] ++ tok ++ [32] ++ GET_COMMAND)
              GET_DATA 8) with (-1).
    change (strncmp (GET_COMMAND ++ [32] ++ tok ++ [32] ++ GET_COMMAND)
              GET_FILE 8) with (-3).
    change (strncmp (GET_COMMAND ++ [32] ++ tok ++ [32] ++ GET_COMMAND)
              GET_COMMAND 11) with 0.
    cbn [Z.eqb]. rewrite Part000_data_reply_scan by exact Htext.
    now apply (data_reply_scan_spec is_data_char GET_COMMAND tok).
Qed.

End Replies.

(** * The version reply *)

Section VersionReply.

(** [src/splpv1.c] does not look at the direction in [WAITING_VER]:
    whatever the direction, it answers as [part_000] answers a message
    from B to A. *)
Lemma Splpv1_version_any_direction (d : Direction) (text : cstring) :
  Splpv1.validate_message WAITING_VER
    {| direction := d; text_message := text |}
  = Part000.validate_message WAITING_VER
      {| direction := B_TO_A; text_message := text |}.
Proof. reflexivity. Qed.

(** In [part_000], a message from A to B resets. *)
Lemma Part000_version_a_to_b (text : cstring) :
  Part000.validate_message WAITING_VER
    {| direction := A_TO_B; text_message := text |}
  = Ok (INIT, MESSAGE_INVALID).
Proof. reflexivity. Qed.

(** ["VERSION "] followed by [digits] is valid exactly when [digits]
    holds digits only; no digit at all is enough. *)
Lemma Part000_version_reply (digits : cstring) :
  ascii_text digits ->
  Part000.validate_message WAITING_VER (version_reply B_TO_A digits)
  = if forallb is_digit digits then Ok (CONNECTED, MESSAGE_VALID)
    else reset_invalid.
Proof.
  intros Hd. unfold Part000.validate_message, version_reply.
  cbn [direction text_message Direction_eqb negb].
  change (strncmp (VERSION ++ [32] ++ digits) VERSION 7) with 0.
  cbn [Z.eqb].
  change 7%nat with (length VERSION) at 1.
  rewrite (char_at_app_head VERSION 32 digits : char_at (VERSION ++ [32] ++ digits) _ = _).
  cbn [bind]. rewrite Z.eqb_refl. cbn [negb].
  rewrite version_loop_digits.
  - change (skipn 8 (VERSION ++ [32] ++ digits)) with digits.
    now destruct (forallb is_digit digits).
  - apply ascii_text_app. split; [apply ascii_literals|].
    constructor; [unfold ascii_char; lia|exact Hd].
  - rewrite length_app. cbn. lia.
  - lia.
Qed.

(** Any other ASCII text resets. *)
Lemma Part000_version_other (text : cstring) :
  (forall digits, text <> VERSION ++ [32] ++ digits) ->
  Part000.validate_message WAITING_VER
    {| direction := B_TO_A; text_message := text |}
  = Ok (INIT, MESSAGE_INVALID).
Proof.
  intros Hother. unfold Part000.validate_message.
  cbn [direction text_message Direction_eqb negb].
  destruct (Z.eqb_spec (strncmp text VERSION 7) 0) as [E|_]; [|reflexivity].
  apply (strncmp_zero text VERSION) in E; [|apply ascii_literals].
  destruct E as [rest ->].
  destruct rest as [|c rest].
  - reflexivity.
  - change 7%nat with (length VERSION) at 1.
    rewrite char_at_app_head. cbn [bind].
    destruct (Z.eqb_spec c 32) as [->|_]; [|reflexivity].
    exfalso. now apply (Hother rest).
Qed.

End VersionReply.

(** * Where the two copies agree *)

Section Agreement.

Lemma scan_token_ext (P Q : Z -> bool) (rest : cstring) (i : nat) :
  (forall c, In c rest -> P c = Q c) ->
  scan_token P rest i = scan_token Q rest i.
Proof.
  revert i. induction rest as [|c rest IH]; intros i H; cbn; [reflexivity|].
  rewrite (H c (or_introl eq_refl)), IH; [reflexivity|].
  intros c' Hc'. apply H. now right.
Qed.

Lemma In_skipn (n : nat) (s : cstring) (c : Z) : In c (skipn n s) -> In c s.
Proof.
  intros H. rewrite <- (firstn_skipn n s). apply in_or_app. now right.
Qed.

Lemma data_reply_scan_ext (P Q : Z -> bool) (text CMD : cstring) (n : nat) :
  (forall c, In c text -> P c = Q c) ->
  data_reply_scan P text CMD n = data_reply_scan Q text CMD n.
Proof.
  intros H. unfold data_reply_scan.
  rewrite (scan_token_ext P Q); [reflexivity|].
  intros c Hc. apply H. eapply In_skipn, Hc.
Qed.

(** With neither [':'] nor [';'] in the text the two character tests of
    [WAITING_DATA] coincide. *)
Lemma data_char_without_colons (text : cstring) :
  ~ In 58 text -> ~ In 59 text ->
  forall c, In c text -> Splpv1.data_char c = is_data_char c.
Proof.
  intros H58 H59 c Hc. rewrite Splpv1_data_char_spec.
  destruct (Z.eqb_spec c 58) as [->|_]; [contradiction|].
  destruct (Z.eqb_spec c 59) as [->|_]; [contradiction|].
  now rewrite !orb_false_r.
Qed.

(** The two copies return the same state and the same verdict on every
    ASCII message, apart from the messages that meet one of the two
    places where they differ: a message from A to B in [WAITING_VER],
    and a text with [':'] or [';']. *)
Theorem copies_agree (state : State) (msg : Message) :
  ascii_text (text_message msg) ->
  ~ In 58 (text_message msg) -> ~ In 59 (text_message msg) ->
  (state = WAITING_VER -> direction msg = B_TO_A) ->
  Splpv1.validate_message state msg = Part000.validate_message state msg.
Proof.
  destruct msg as [dir text]. cbn [text_message direction].
  intros Htext H58 H59 Hdir.
  destruct state; try reflexivity.
  - (* CONNECTED *)
    unfold Splpv1.validate_message, Part000.validate_message.
    cbn [text_message direction].
    destruct (negb (Direction_eqb dir A_TO_B)); [reflexivity|].
    destruct (Z.eqb_spec (strcmp text GET_VER) 0) as [E|_].
    { apply strcmp_zero in E;
        [subst text; reflexivity|exact Htext|apply ascii_textb_spec; reflexivity]. }
    destruct ((strcmp text GET_DATA =? 0) || (strcmp text GET_FILE =? 0)
              || (strcmp text GET_COMMAND =? 0)); [reflexivity|].
    destruct (Z.eqb_spec (strcmp text GET_B64) 0) as [E|_].
    { apply strcmp_zero in E;
        [subst text; reflexivity|exact Htext|apply ascii_textb_spec; reflexivity]. }
    reflexivity.
  - (* WAITING_VER *)
    rewrite (Hdir eq_refl). reflexivity.
  - (* WAITING_DATA *)
    unfold Splpv1.validate_message, Part000.validate_message.
    cbn [text_message direction].
    rewrite !Splpv1_data_reply_scan, !Part000_data_reply_scan by exact Htext.
    rewrite !(data_reply_scan_ext Splpv1.data_char is_data_char text)
      by now apply data_char_without_colons.
    reflexivity.
  - (* WAITING_B64_DATA *)
    symmetry. now apply Part000_b64_reply_eq.
Qed.

End Agreement.

(** * Where [validate_message] returns *)

Section Returns.

Lemma char_at_le (s : cstring) (i : nat) :
  (i <= length s)%nat -> exists c, char_at s i = Ok c.
Proof.
  intros H. destruct (Nat.eq_dec i (length s)) as [->|Hne].
  - exists 0. apply char_at_end.
  - exists (nth i s 0). apply char_at_lt. lia.
Qed.

Lemma strncmp_zero_length (s lit : cstring) :
  ascii_text lit ->
  strncmp s lit (length lit) = 0 -> (length lit <= length s)%nat.
Proof.
  intros Hlit E. destruct (strncmp_zero s lit Hlit E) as [rest ->].
  rewrite length_app. lia.
Qed.

(** A branch of [WAITING_DATA] entered at an index inside the string
    reads inside the string only. *)
Lemma data_reply_scan_returns (P : Z -> bool) (text CMD : cstring) (n : nat) :
  (n <= length text)%nat ->
  exists r, data_reply_scan P text CMD n = Ok r.
Proof.
  intros Hn. unfold data_reply_scan.
  destruct (char_at_le text n Hn) as [sep Esep]. rewrite Esep. cbn [bind].
  destruct (Z.eqb_spec sep 32) as [->|_]; cbn [negb]; [|now eexists].
  destruct (char_at_nonzero text n 32 Esep ltac:(lia)) as [Hlt _].
  destruct (scan_token P (skipn (S n) text) (S n)) as [j|] eqn:Escan;
    [|now eexists].
  destruct (scan_token_stop _ _ _ _ Escan) as (Hj & _ & _).
  rewrite length_skipn in Hj.
  destruct (char_at_le text j ltac:(lia)) as [c Ec]. rewrite Ec. cbn [bind].
  destruct (Z.eqb_spec c 0) as [->|Hc]; [now eexists|].
  destruct (char_at_nonzero text j c Ec Hc) as [Hjlt _].
  unfold strcmp_from.
  destruct (Nat.leb_spec (j + 1) (length text)) as [_|]; [|lia].
  cbn [bind]. destruct (negb _); now eexists.
Qed.

(** [src/splpv1.c]: the call returns on every ASCII message, unless the
    message is a base64 reply from B to A whose token has fewer than
    two characters. *)
Theorem Splpv1_validate_message_returns (state : State) (msg : Message) :
  ascii_text (text_message msg) ->
  (state = WAITING_B64_DATA -> direction msg = B_TO_A ->
   forall tok, text_message msg = B64 ++ [32] ++ tok -> (2 <= length tok)%nat) ->
  exists r, Splpv1.validate_message state msg = Ok r.
Proof.
  destruct msg as [dir text]. cbn [text_message direction].
  intros Htext Hlong.
  destruct ascii_literals as (Hd & Hf & Hc & Hv & Hb).
  destruct state; unfold Splpv1.validate_message;
    cbn [text_message direction].
  - (* INIT *)
    destruct (negb _); [now eexists|]. destruct (negb _); now eexists.
  - (* CONNECTING *)
    destruct (negb _); [now eexists|]. destruct (negb _); now eexists.
  - (* CONNECTED *)
    destruct (negb _); [now eexists|].
    repeat (match goal with
            | |- context [if ?b then _ else _] => destruct b
            end; [now eexists|]).
    now eexists.
  - (* WAITING_VER *)
    destruct (Z.eqb_spec (strncmp text VERSION 7) 0) as [E|_]; [|now eexists].
    pose proof (strncmp_zero_length text VERSION Hv E) as Hlen.
    change (length VERSION) with 7%nat in Hlen.
    destruct (char_at_le text 7 Hlen) as [sep Esep]. rewrite Esep. cbn [bind].
    destruct (Z.eqb_spec sep 32) as [->|_]; cbn [negb]; [|now eexists].
    destruct (char_at_nonzero text 7 32 Esep ltac:(lia)) as [Hlt _].
    rewrite version_loop_digits by (try exact Htext; lia). cbn [bind].
    destruct (forallb _ _); now eexists.
  - (* WAITING_DATA *)
    destruct (negb _); [now eexists|].
    rewrite !Splpv1_data_reply_scan.
    destruct (Z.eqb_spec (strncmp text GET_DATA 8) 0) as [E|_].
    { apply data_reply_scan_returns.
      apply (strncmp_zero_length text GET_DATA Hd E). }
    destruct (Z.eqb_spec (strncmp text GET_FILE 8) 0) as [E|_].
    { apply data_reply_scan_returns.
      apply (strncmp_zero_length text GET_FILE Hf E). }
    destruct (Z.eqb_spec (strncmp text GET_COMMAND 11) 0) as [E|_].
    { apply data_reply_scan_returns.
      apply (strncmp_zero_length text GET_COMMAND Hc E). }
    now eexists.
  - (* WAITING_B64_DATA *)
    destruct dir; cbn [Direction_eqb negb]; [now eexists|].
    destruct (Z.eqb_spec (strncmp text B64 4) 0) as [E|_]; [|now eexists].
    cbn [negb].
    destruct (strncmp_zero text B64 Hb E) as [rest ->].
    destruct rest as [|c tok]; [now eexists|].
    change 4%nat with (length B64) at 1.
    rewrite char_at_app_head. cbn [bind].
    destruct (Z.eqb_spec c 32) as [->|_]; cbn [negb]; [|now eexists].
    specialize (Hlong eq_refl eq_refl tok eq_refl).
    apply ascii_text_app in Htext. destruct Htext as [_ Htok].
    apply Forall_cons_iff in Htok. destruct Htok as [_ Htok].
    pose proof (Splpv1_b64_reply tok Htok) as Hreply.
    unfold Splpv1.validate_message, b64_reply in Hreply.
    cbn [text_message direction Direction_eqb negb] in Hreply.
    change (str "B64: " ++ tok) with (B64 ++ 32 :: tok) in Hreply.
    rewrite E in Hreply. cbn [Z.eqb negb] in Hreply.
    change 4%nat with (length B64) in Hreply at 1.
    rewrite char_at_app_head in Hreply. cbn [bind] in Hreply.
    rewrite Z.eqb_refl in Hreply. cbn [negb] in Hreply.
    rewrite Hreply.
    destruct (Nat.ltb_spec (length tok) 2) as [|_]; [lia|].
    destruct (base64_shapedb tok); now eexists.
  - (* DISCONNECTING *)
    destruct (negb _); [now eexists|]. destruct (negb _); now eexists.
Qed.

(** [part_000]: the same. *)
Theorem Part000_validate_message_returns (state : State) (msg : Message) :
  ascii_text (text_message msg) ->
  (state = WAITING_B64_DATA -> direction msg = B_TO_A ->
   forall tok, text_message msg = B64 ++ [32] ++ tok -> (2 <= length tok)%nat) ->
  exists r, Part000.validate_message state msg = Ok r.
Proof.
  intros Htext Hlong.
  destruct (State_eq_dec state WAITING_B64_DATA) as [->|Hstate].
  { rewrite Part000_b64_reply_eq by exact Htext.
    now apply Splpv1_validate_message_returns. }
  clear Hlong. destruct msg as [dir text]. cbn [text_message direction] in *.
  destruct ascii_literals as (Hd & Hf & Hc & Hv & Hb).
  destruct state; try contradiction; unfold Part000.validate_message;
    cbn [text_message direction].
  - (* INIT *)
    destruct (negb _); [now eexists|]. destruct (negb _); now eexists.
  - (* CONNECTING *)
    destruct (negb _); [now eexists|]. destruct (negb _); now eexists.
  - (* CONNECTED *)
    destruct (negb _); [now eexists|].
    repeat (match goal with
            | |- context [if ?b then _ else _] => destruct b
            end; [now eexists|]).
    now eexists.
  - (* WAITING_VER *)
    destruct (negb _); [now eexists|].
    destruct (Z.eqb_spec (strncmp text VERSION 7) 0) as [E|_]; [|now eexists].
    pose proof (strncmp_zero_length text VERSION Hv E) as Hlen.
    change (length VERSION) with 7%nat in Hlen.
    destruct (char_at_le text 7 Hlen) as [sep Esep]. rewrite Esep. cbn [bind].
    destruct (Z.eqb_spec sep 32) as [->|_]; cbn [negb]; [|now eexists].
    destruct (char_at_nonzero text 7 32 Esep ltac:(lia)) as [Hlt _].
    rewrite version_loop_digits by (try exact Htext; lia). cbn [bind].
    destruct (forallb _ _); now eexists.
  - (* WAITING_DATA *)
    destruct (negb _); [now eexists|].
    rewrite !Part000_data_reply_scan by exact Htext.
    destruct (Z.eqb_spec (strncmp text GET_DATA 8) 0) as [E|_].
    { apply data_reply_scan_returns.
      apply (strncmp_zero_length text GET_DATA Hd E). }
    destruct (Z.eqb_spec (strncmp text GET_FILE 8) 0) as [E|_].
    { apply data_reply_scan_returns.
      apply (strncmp_zero_length text GET_FILE Hf E). }
    destruct (Z.eqb_spec (strncmp text GET_COMMAND 11) 0) as [E|_].
    { apply data_reply_scan_returns.
      apply (strncmp_zero_length text GET_COMMAND Hc E). }
    now eexists.
  - (* DISCONNECTING *)
    destruct (negb _); [now eexists|]. destruct (negb _); now eexists.
Qed.

(** And the exception is one: a base64 reply whose token has fewer than
    two characters makes both copies read [text[7]], past the
    terminator. *)
Theorem b64_short_token_faults (tok : cstring) :
  ascii_text tok -> (length tok < 2)%nat ->
  Splpv1.validate_message WAITING_B64_DATA (b64_reply tok)
  = Fault (ReadPastTerminator 7)
  /\ Part000.validate_message WAITING_B64_DATA (b64_reply tok)
     = Fault (ReadPastTerminator 7).
Proof.
  intros Htok Hshort.
  assert (Htext : ascii_text (text_message (b64_reply tok))).
  { apply ascii_text_app. split; [|exact Htok].
    apply ascii_textb_spec. reflexivity. }
  rewrite Part000_b64_reply_eq by exact Htext.
  rewrite Splpv1_b64_reply by exact Htok.
  apply Nat.ltb_lt in Hshort. rewrite Hshort. now split.
Qed.

(** The fuel given to the loops, one more than the length of the text,
    is never used up on an ASCII text. *)
Corollary fuel_suffices (state : State) (msg : Message) :
  ascii_text (text_message msg) ->
  Splpv1.validate_message state msg <> Fault FuelExhausted
  /\ Part000.validate_message state msg <> Fault FuelExhausted.
Proof.
  intros Htext.
  assert (Hcases :
    (state = WAITING_B64_DATA -> direction msg = B_TO_A ->
     forall tok, text_message msg = B64 ++ [32] ++ tok -> (2 <= length tok)%nat)
    \/ exists tok, ascii_text tok /\ (length tok < 2)%nat
                   /\ state = WAITING_B64_DATA /\ msg = b64_reply tok).
  { destruct (State_eq_dec state WAITING_B64_DATA) as [->|Hs];
      [|left; intros; contradiction].
    destruct msg as [[|] text]; cbn [direction text_message] in *;
      [left; intros; discriminate|].
    destruct (Z.eqb_spec (strncmp text (B64 ++ [32]) (length (B64 ++ [32]))) 0)
      as [E|E].
    - apply strncmp_zero in E; [|apply ascii_textb_spec; reflexivity].
      destruct E as [tok ->].
      destruct (Nat.ltb_spec (length tok) 2) as [Hshort|Hlong].
      + right. exists tok. apply ascii_text_app in Htext.
        repeat split; try tauto.
      + left. intros _ _ tok' E.
        change (B64 ++ [32] ++ tok') with ((B64 ++ [32]) ++ tok') in E.
        apply app_inv_head in E. now subst tok'.
    - left. intros _ _ tok ->. exfalso. apply E.
      change (B64 ++ [32] ++ tok) with ((B64 ++ [32]) ++ tok).
      apply strncmp_prefix. }
  destruct Hcases as [Hlong|(tok & Htok & Hshort & -> & ->)].
  - destruct (Splpv1_validate_message_returns state msg Htext Hlong) as [r ->].
    destruct (Part000_validate_message_returns state msg Htext Hlong) as [r' ->].
    split; discriminate.
  - destruct (b64_short_token_faults tok Htok Hshort) as [-> ->].
    split; discriminate.
Qed.

End Returns.

(** * The rows of the state table *)

Section Rows.

Lemma strcmp_eqb_other (text lit : cstring) :
  ascii_text text -> ascii_text lit -> text <> lit ->
  (strcmp text lit =? 0) = false.
Proof.
  intros Ht Hl Hne. destruct (Z.eqb_spec (strcmp text lit) 0) as [E|_];
    [|reflexivity].
  now apply strcmp_zero in E.
Qed.

Lemma strncmp_eqb_other (text lit : cstring) :
  ascii_text lit -> (forall rest, text <> lit ++ rest) ->
  (strncmp text lit (length lit) =? 0) = false.
Proof.
  intros Hl Hne.
  destruct (Z.eqb_spec (strncmp text lit (length lit)) 0) as [E|_];
    [|reflexivity].
  destruct (strncmp_zero text lit Hl E) as [rest ->]. now destruct (Hne rest).
Qed.

(** [INIT]: anything but [CONNECT] from A to B is invalid and leaves the
    state at [INIT].  Both copies. *)
Lemma init_row (msg : Message) :
  ascii_text (text_message msg) ->
  ~ (direction msg = A_TO_B /\ text_message msg = CONNECT) ->
  Splpv1.validate_message INIT msg = Ok (INIT, MESSAGE_INVALID)
  /\ Part000.validate_message INIT msg = Ok (INIT, MESSAGE_INVALID).
Proof.
  destruct msg as [dir text]. cbn [text_message direction]. intros Ht Hno.
  assert (H : Splpv1.validate_message INIT
                {| direction := dir; text_message := text |}
              = Ok (INIT, MESSAGE_INVALID)); [|split; exact H].
  unfold Splpv1.validate_message. cbn [text_message direction].
  destruct (Z.eqb_spec (strcmp text CONNECT) 0) as [E|_]; [|reflexivity].
  apply strcmp_zero in E; [|exact Ht|apply ascii_textb_spec; reflexivity].
  destruct dir; [|reflexivity]. exfalso. now apply Hno.
Qed.

(** [CONNECTING] and [DISCONNECTING]: anything but the expected text
    from B to A is invalid and resets.  Both copies. *)
Lemma connecting_row (msg : Message) :
  ascii_text (text_message msg) ->
  ~ (direction msg = B_TO_A /\ text_message msg = CONNECT_OK) ->
  Splpv1.validate_message CONNECTING msg = Ok (INIT, MESSAGE_INVALID)
  /\ Part000.validate_message CONNECTING msg = Ok (INIT, MESSAGE_INVALID).
Proof.
  destruct msg as [dir text]. cbn [text_message direction]. intros Ht Hno.
  assert (H : Splpv1.validate_message CONNECTING
                {| direction := dir; text_message := text |}
              = Ok (INIT, MESSAGE_INVALID)); [|split; exact H].
  unfold Splpv1.validate_message. cbn [text_message direction].
  destruct (Z.eqb_spec (strcmp text CONNECT_OK) 0) as [E|_]; [|reflexivity].
  apply strcmp_zero in E; [|exact Ht|apply ascii_textb_spec; reflexivity].
  destruct dir; [reflexivity|]. exfalso. now apply Hno.
Qed.

Lemma disconnecting_row (msg : Message) :
  ascii_text (text_message msg) ->
  ~ (direction msg = B_TO_A /\ text_message msg = DISCONNECT_OK) ->
  Splpv1.validate_message DISCONNECTING msg = Ok (INIT, MESSAGE_INVALID)
  /\ Part000.validate_message DISCONNECTING msg = Ok (INIT, MESSAGE_INVALID).
Proof.
  destruct msg as [dir text]. cbn [text_message direction]. intros Ht Hno.
  assert (H : Splpv1.validate_message DISCONNECTING
                {| direction := dir; text_message := text |}
              = Ok (INIT, MESSAGE_INVALID)); [|split; exact H].
  unfold Splpv1.validate_message. cbn [text_message direction].
  destruct (Z.eqb_spec (strcmp text DISCONNECT_OK) 0) as [E|_]; [|reflexivity].
  apply strcmp_zero in E; [|exact Ht|apply ascii_textb_spec; reflexivity].
  destruct dir; [reflexivity|]. exfalso. now apply Hno.
Qed.

(** A message in the wrong direction resets in [CONNECTED],
    [WAITING_DATA] and [WAITING_B64_DATA] in both copies, and in
    [WAITING_VER] in [part_000]. *)
Lemma wrong_direction_resets (text : cstring) :
  (forall V, In V [Splpv1.validate_message; Part000.validate_message] ->
     V CONNECTED {| direction := B_TO_A; text_message := text |}
     = Ok (INIT, MESSAGE_INVALID)
     /\ V WAITING_DATA {| direction := A_TO_B; text_message := text |}
        = Ok (INIT, MESSAGE_INVALID)
     /\ V WAITING_B64_DATA {| direction := A_TO_B; text_message := text |}
        = Ok (INIT, MESSAGE_INVALID))
  /\ Part000.validate_message WAITING_VER
       {| direction := A_TO_B; text_message := text |}
     = Ok (INIT, MESSAGE_INVALID).
Proof.
  split; [|reflexivity].
  intros V [<-|[<-|[]]]; repeat split.
Qed.

(** [CONNECTED]: a text from A to B that is none of the six commands is
    invalid, and the state stays [CONNECTED].  Both copies. *)
Lemma connected_unknown_command (text : cstring) :
  ascii_text text ->
  ~ In text [GET_VER; GET_DATA; GET_FILE; GET_COMMAND; GET_B64; DISCONNECT] ->
  Splpv1.validate_message CONNECTED
    {| direction := A_TO_B; text_message := text |}
  = Ok (CONNECTED, MESSAGE_INVALID)
  /\ Part000.validate_message CONNECTED
       {| direction := A_TO_B; text_message := text |}
     = Ok (CONNECTED, MESSAGE_INVALID).
Proof.
  intros Ht Hno.
  unfold Splpv1.validate_message, Part000.validate_message.
  cbn [text_message direction Direction_eqb negb].
  rewrite !strcmp_eqb_other;
    try exact Ht; try (apply ascii_textb_spec; reflexivity);
    try (intros ->; apply Hno; cbn; tauto).
  now split.
Qed.

(** [WAITING_DATA]: a text from B to A that begins with none of the
    three commands is valid, and the state stays [WAITING_DATA].  Both
    copies. *)
Lemma waiting_data_unknown_prefix (text : cstring) :
  (forall CMD rest, In CMD [GET_DATA; GET_FILE; GET_COMMAND] ->
                    text <> CMD ++ rest) ->
  Splpv1.validate_message WAITING_DATA
    {| direction := B_TO_A; text_message := text |}
  = Ok (WAITING_DATA, MESSAGE_VALID)
  /\ Part000.validate_message WAITING_DATA
       {| direction := B_TO_A; text_message := text |}
     = Ok (WAITING_DATA, MESSAGE_VALID).
Proof.
  intros Hno.
  destruct ascii_literals as (Hd & Hf & Hc & _).
  unfold Splpv1.validate_message, Part000.validate_message.
  cbn [text_message direction Direction_eqb negb].
  pose proof (strncmp_eqb_other text GET_DATA Hd) as E1.
  pose proof (strncmp_eqb_other text GET_FILE Hf) as E2.
  pose proof (strncmp_eqb_other text GET_COMMAND Hc) as E3.
  cbn [length GET_DATA GET_FILE GET_COMMAND] in E1, E2, E3.
  rewrite E1, E2, E3 by (intros rest; apply Hno; cbn; tauto).
  now split.
Qed.

End Rows.

(** * The properties of the specification *)

(** C1, at the inputs where the code departs from it.  A message from B
    to A that begins with none of the three commands is answered
    [MESSAGE_VALID] in [WAITING_DATA] and the state stays
    [WAITING_DATA]: the [switch] case ends in [break] and the function
    in [return MESSAGE_VALID].  A message from A to B that is none of
    the six commands is answered [MESSAGE_INVALID] in [CONNECTED], but
    the state stays [CONNECTED]: that [return] is the only invalid one
    outside [INIT] without [state = INIT].  Both copies do the same. *)
Theorem C1_invalid_message_without_reset :
  strncmp (str "HELLO") GET_DATA 8 <> 0
  /\ strncmp (str "HELLO") GET_FILE 8 <> 0
  /\ strncmp (str "HELLO") GET_COMMAND 11 <> 0
  /\ Splpv1.validate_message WAITING_DATA (b_to_a "HELLO")
     = Ok (WAITING_DATA, MESSAGE_VALID)
  /\ Part000.validate_message WAITING_DATA (b_to_a "HELLO")
     = Ok (WAITING_DATA, MESSAGE_VALID)
  /\ Splpv1.validate_message CONNECTED (a_to_b "HELLO")
     = Ok (CONNECTED, MESSAGE_INVALID)
  /\ Part000.validate_message CONNECTED (a_to_b "HELLO")
     = Ok (CONNECTED, MESSAGE_INVALID).
Proof. repeat split; try (vm_compute; reflexivity); vm_compute; discriminate. Qed.

(** C2, at the inputs where the code departs from it.  With nothing, or
    with a single character, after ["B64: "], the first test of the scan
    reads [text[7]], while the terminating NUL of the text is at index 5,
    or 6: a read past the end of the string, in both copies.  The state
    [WAITING_B64_DATA] is reached from [INIT] by three valid messages. *)
Theorem C2_base64_scan_reads_past_terminator :
  length (str "B64: ") = 5%nat
  /\ Splpv1.validate_message WAITING_B64_DATA (b_to_a "B64: ")
     = Fault (ReadPastTerminator 7)
  /\ Part000.validate_message WAITING_B64_DATA (b_to_a "B64: ")
     = Fault (ReadPastTerminator 7)
  /\ length (str "B64: Q") = 6%nat
  /\ Splpv1.validate_message WAITING_B64_DATA (b_to_a "B64: Q")
     = Fault (ReadPastTerminator 7)
  /\ Part000.validate_message WAITING_B64_DATA (b_to_a "B64: Q")
     = Fault (ReadPastTerminator 7)
  /\ run Splpv1.validate_message INIT
       [a_to_b "CONNECT"; b_to_a "CONNECT_OK"; a_to_b "GET_B64"; b_to_a "B64: "]
     = Fault (ReadPastTerminator 7)
  /\ run Part000.validate_message INIT
       [a_to_b "CONNECT"; b_to_a "CONNECT_OK"; a_to_b "GET_B64"; b_to_a "B64: "]
     = Fault (ReadPastTerminator 7).
Proof. repeat split; vm_compute; reflexivity. Qed.

(** C3, at the input where the code departs from it.  After [GET_DATA]
    has been sent in [CONNECTED], the reply [GET_FILE a.1 GET_FILE], the
    echo of a command that was not the one requested, is answered
    [MESSAGE_VALID] and the state returns to [CONNECTED]: the state
    keeps no trace of the command.  Both copies do the same. *)
Theorem C3_echo_of_another_command_accepted :
  run Splpv1.validate_message CONNECTED
    [a_to_b "GET_DATA"; b_to_a "GET_FILE a.1 GET_FILE"]
  = Ok (CONNECTED, [MESSAGE_VALID; MESSAGE_VALID])
  /\ run Part000.validate_message CONNECTED
       [a_to_b "GET_DATA"; b_to_a "GET_FILE a.1 GET_FILE"]
     = Ok (CONNECTED, [MESSAGE_VALID; MESSAGE_VALID]).
Proof. split; vm_compute; reflexivity. Qed.

(** C4, at the inputs where the code departs from it.  In
    [src/splpv1.c] the digit range of a data token runs to 59, so a
    token with [':'] or [';'] is answered [MESSAGE_VALID]; the table of
    the other copy rejects both tokens. *)
Theorem C4_colon_and_semicolon_in_data_token :
  Splpv1.validate_message WAITING_DATA (b_to_a "GET_DATA a:b GET_DATA")
  = Ok (CONNECTED, MESSAGE_VALID)
  /\ Splpv1.validate_message WAITING_DATA (b_to_a "GET_DATA a;b GET_DATA")
     = Ok (CONNECTED, MESSAGE_VALID)
  /\ Part000.validate_message WAITING_DATA (b_to_a "GET_DATA a:b GET_DATA")
     = Ok (INIT, MESSAGE_INVALID)
  /\ Part000.validate_message WAITING_DATA (b_to_a "GET_DATA a;b GET_DATA")
     = Ok (INIT, MESSAGE_INVALID).
Proof. repeat split; vm_compute; reflexivity. Qed.

(** C5 as stated fails: the reply [GET_DATA], two spaces, [GET_DATA] is
    not answered with [MESSAGE_INVALID] and a reset to [INIT]. *)
Lemma C5_empty_token_counterexample :
  Splpv1.validate_message WAITING_DATA (b_to_a "GET_DATA  GET_DATA")
  <> Ok (INIT, MESSAGE_INVALID)
  /\ Part000.validate_message WAITING_DATA (b_to_a "GET_DATA  GET_DATA")
     <> Ok (INIT, MESSAGE_INVALID).
Proof. split; vm_compute; discriminate. Qed.

(** C5, amended.  In [WAITING_DATA] the token between the command and
    its echo may be empty: for each of the three commands the reply made
    of the command, two spaces and the command again, sent from B to A,
    is answered [MESSAGE_VALID] and the state becomes [CONNECTED], in
    both copies of the validator. *)
Theorem C5_empty_token_accepted :
  text_message (data_reply_message GET_DATA [])
  = text_message (b_to_a "GET_DATA  GET_DATA")
  /\ Splpv1.validate_message WAITING_DATA (data_reply_message GET_DATA [])
     = Ok (CONNECTED, MESSAGE_VALID)
  /\ Splpv1.validate_message WAITING_DATA (data_reply_message GET_FILE [])
     = Ok (CONNECTED, MESSAGE_VALID)
  /\ Splpv1.validate_message WAITING_DATA (data_reply_message GET_COMMAND [])
     = Ok (CONNECTED, MESSAGE_VALID)
  /\ Part000.validate_message WAITING_DATA (data_reply_message GET_DATA [])
     = Ok (CONNECTED, MESSAGE_VALID)
  /\ Part000.validate_message WAITING_DATA (data_reply_message GET_FILE [])
     = Ok (CONNECTED, MESSAGE_VALID)
  /\ Part000.validate_message WAITING_DATA (data_reply_message GET_COMMAND [])
     = Ok (CONNECTED, MESSAGE_VALID).
Proof. repeat split; vm_compute; reflexivity. Qed.

(** C6, at the input where the code departs from it.  In [WAITING_VER]
    the text ["VERSION "], with nothing after the space, is answered
    [MESSAGE_VALID] and the state becomes [CONNECTED]: the digit loop
    makes no iteration and nothing asks for one.  The other five texts
    of the claim are answered as it says.  Both copies do the same. *)
Theorem C6_version_without_digits_accepted :
  Splpv1.validate_message WAITING_VER (b_to_a "VERSION ")
  = Ok (CONNECTED, MESSAGE_VALID)
  /\ Part000.validate_message WAITING_VER (b_to_a "VERSION ")
     = Ok (CONNECTED, MESSAGE_VALID)
  /\ map (fun s => Splpv1.validate_message WAITING_VER (b_to_a s))
       ["VERSION 0"; "VERSION 123"; "VERSION"; "VERSION -1"; "VERSION 1 2"]%string
     = [Ok (CONNECTED, MESSAGE_VALID); Ok (CONNECTED, MESSAGE_VALID);
        Ok (INIT, MESSAGE_INVALID); Ok (INIT, MESSAGE_INVALID);
        Ok (INIT, MESSAGE_INVALID)]
  /\ map (fun s => Part000.validate_message WAITING_VER (b_to_a s))
       ["VERSION 0"; "VERSION 123"; "VERSION"; "VERSION -1"; "VERSION 1 2"]%string
     = [Ok (CONNECTED, MESSAGE_VALID); Ok (CONNECTED, MESSAGE_VALID);
        Ok (INIT, MESSAGE_INVALID); Ok (INIT, MESSAGE_INVALID);
        Ok (INIT, MESSAGE_INVALID)].
Proof. repeat split; vm_compute; reflexivity. Qed.

(** C7, at the input where the code departs from it.  In
    [src/splpv1.c] the case [WAITING_VER] never looks at the direction:
    [VERSION 3] sent from A to B is answered [MESSAGE_VALID] and the
    state becomes [CONNECTED].  The other copy tests the direction
    first and resets. *)
Theorem C7_version_reply_direction_unchecked :
  Splpv1.validate_message WAITING_VER (a_to_b "VERSION 3")
  = Ok (CONNECTED, MESSAGE_VALID)
  /\ Part000.validate_message WAITING_VER (a_to_b "VERSION 3")
     = Ok (INIT, MESSAGE_INVALID).
Proof. split; vm_compute; reflexivity. Qed.

(** C8.  In [WAITING_B64_DATA] a message ["B64: " ++ tok] sent from B to
    A, with [tok] an ASCII text, is answered [MESSAGE_VALID] exactly
    when [tok] is base64-shaped: characters of the alphabet [A-Z],
    [a-z], [0-9], ['+'], ['/'], closed by zero, one or two ['='], of a
    total length that is a positive multiple of 4.  This holds of both
    copies of the validator, and the valid answer always moves to
    [CONNECTED].  ["B64: QQ=="] and ["B64: SGVsbG8="] are valid,
    ["B64: QQ="] is invalid and resets to [INIT]. *)
Theorem C8_base64_valid_iff_shaped (tok : cstring) :
  ascii_text tok ->
  (verdict (Splpv1.validate_message WAITING_B64_DATA (b64_reply tok))
   = Some MESSAGE_VALID <-> base64_shaped tok)
  /\ (verdict (Part000.validate_message WAITING_B64_DATA (b64_reply tok))
      = Some MESSAGE_VALID <-> base64_shaped tok)
  /\ (base64_shaped tok ->
      Splpv1.validate_message WAITING_B64_DATA (b64_reply tok)
      = Ok (CONNECTED, MESSAGE_VALID)
      /\ Part000.validate_message WAITING_B64_DATA (b64_reply tok)
         = Ok (CONNECTED, MESSAGE_VALID))
  /\ Splpv1.validate_message WAITING_B64_DATA (b_to_a "B64: QQ==")
     = Ok (CONNECTED, MESSAGE_VALID)
  /\ Part000.validate_message WAITING_B64_DATA (b_to_a "B64: QQ==")
     = Ok (CONNECTED, MESSAGE_VALID)
  /\ Splpv1.validate_message WAITING_B64_DATA (b_to_a "B64: SGVsbG8=")
     = Ok (CONNECTED, MESSAGE_VALID)
  /\ Part000.validate_message WAITING_B64_DATA (b_to_a "B64: SGVsbG8=")
     = Ok (CONNECTED, MESSAGE_VALID)
  /\ Splpv1.validate_message WAITING_B64_DATA (b_to_a "B64: QQ=")
     = Ok (INIT, MESSAGE_INVALID)
  /\ Part000.validate_message WAITING_B64_DATA (b_to_a "B64: QQ=")
     = Ok (INIT, MESSAGE_INVALID).
Proof.
  intros Htok.
  assert (Htext : ascii_text (text_message (b64_reply tok))).
  { apply ascii_text_app. split; [|exact Htok].
    apply ascii_textb_spec. reflexivity. }
  assert (H1 : verdict (Splpv1.validate_message WAITING_B64_DATA (b64_reply tok))
               = Some MESSAGE_VALID <-> base64_shaped tok).
  { rewrite <- base64_shapedb_spec, Splpv1_b64_reply by exact Htok.
    destruct (length tok <? 2)%nat eqn:Hlen.
    - unfold base64_shapedb.
      apply Nat.ltb_lt in Hlen.
      destruct (Nat.leb_spec 2 (length tok)) as [|_]; [lia|].
      cbn. split; discriminate.
    - destruct (base64_shapedb tok); cbn; split; congruence. }
  assert (H2 : base64_shaped tok ->
               Splpv1.validate_message WAITING_B64_DATA (b64_reply tok)
               = Ok (CONNECTED, MESSAGE_VALID)).
  { intros Hs. apply base64_shapedb_spec in Hs.
    rewrite Splpv1_b64_reply by exact Htok.
    assert (Hn : (length tok <? 2)%nat = false).
    { unfold base64_shapedb in Hs.
      destruct (Nat.leb_spec 2 (length tok)) as [Hn|_]; [|discriminate].
      apply Nat.ltb_ge, Hn. }
    now rewrite Hn, Hs. }
  rewrite (Part000_b64_reply_eq _ Htext).
  split; [exact H1|]. split; [exact H1|].
  split; [intros Hs; split; apply H2, Hs|].
  repeat split; vm_compute; reflexivity.
Qed.

(** C8 at the token [SGVsbG8=] of the protocol table. *)
Lemma C8_base64_valid_iff_shaped_witness :
  ascii_text (str "SGVsbG8=")
  /\ base64_shaped (str "SGVsbG8=")
  /\ Splpv1.validate_message WAITING_B64_DATA (b64_reply (str "SGVsbG8="))
     = Ok (CONNECTED, MESSAGE_VALID)
  /\ Part000.validate_message WAITING_B64_DATA (b64_reply (str "SGVsbG8="))
     = Ok (CONNECTED, MESSAGE_VALID).
Proof.
  assert (H : ascii_text (str "SGVsbG8=")).
  { apply ascii_textb_spec. vm_compute. reflexivity. }
  assert (Hs : base64_shaped (str "SGVsbG8=")).
  { apply base64_shapedb_spec. vm_compute. reflexivity. }
  split; [exact H|]. split; [exact Hs|].
  exact (proj1 (proj2 (proj2 (C8_base64_valid_iff_shaped (str "SGVsbG8=") H)))
           Hs).
Defined.

(** C9.  From [INIT], the four messages [CONNECT] (A to B),
    [CONNECT_OK] (B to A), [GET_VER] (A to B) and [VERSION 3] (B to A)
    are answered [MESSAGE_VALID] one after the other and leave the state
    at [CONNECTED], in both copies of the validator. *)
Theorem C9_handshake_and_version_round_trip :
  run Splpv1.validate_message INIT
    [a_to_b "CONNECT"; b_to_a "CONNECT_OK"; a_to_b "GET_VER"; b_to_a "VERSION 3"]
  = Ok (CONNECTED, [MESSAGE_VALID; MESSAGE_VALID; MESSAGE_VALID; MESSAGE_VALID])
  /\ run Part000.validate_message INIT
       [a_to_b "CONNECT"; b_to_a "CONNECT_OK"; a_to_b "GET_VER"; b_to_a "VERSION 3"]
     = Ok (CONNECTED, [MESSAGE_VALID; MESSAGE_VALID; MESSAGE_VALID; MESSAGE_VALID]).
Proof. split; vm_compute; reflexivity. Qed.

(** C10, at the inputs where the code departs from it.  The two copies
    answer differently a version reply sent from A to B and a data
    reply whose token holds [':']. *)
Theorem C10_copies_disagree :
  Splpv1.validate_message WAITING_VER (a_to_b "VERSION 3")
  <> Part000.validate_message WAITING_VER (a_to_b "VERSION 3")
  /\ Splpv1.validate_message WAITING_DATA (b_to_a "GET_DATA a:b GET_DATA")
     <> Part000.validate_message WAITING_DATA (b_to_a "GET_DATA a:b GET_DATA").
Proof. split; vm_compute; discriminate. Qed.

(** * Further properties of the code *)

(** ** What a call can return *)

Section Outcomes.

Ltac split_matches :=
  repeat match goal with
    | |- context [match ?x with _ => _ end] => destruct x
    end.

Ltac outcome :=
  unfold bind, reset_invalid; cbv beta; split_matches;
  intros E; inversion E; subst; auto.

(** A branch of [WAITING_DATA], once entered, resets or accepts. *)
Lemma Splpv1_data_reply_outcome (text CMD : cstring) (n : nat)
  (r : State * test_status) :
  Splpv1.data_reply text CMD n = Ok r ->
  r = (INIT, MESSAGE_INVALID) \/ r = (CONNECTED, MESSAGE_VALID).
Proof. unfold Splpv1.data_reply. outcome. Qed.

Lemma Part000_data_reply_outcome (text CMD : cstring) (n : nat)
  (r : State * test_status) :
  Part000.data_reply text CMD n = Ok r ->
  r = (INIT, MESSAGE_INVALID) \/ r = (CONNECTED, MESSAGE_VALID).
Proof. unfold Part000.data_reply. outcome. Qed.

Lemma Splpv1_b64_tail_outcome (text : cstring) (i : nat)
  (r : State * test_status) :
  Splpv1.b64_tail text i = Ok r ->
  r = (INIT, MESSAGE_INVALID) \/ r = (CONNECTED, MESSAGE_VALID).
Proof. unfold Splpv1.b64_tail. outcome. Qed.

Lemma Part000_b64_tail_outcome (text : cstring) (p0 p : nat)
  (r : State * test_status) :
  Part000.b64_tail text p0 p = Ok r ->
  r = (INIT, MESSAGE_INVALID) \/ r = (CONNECTED, MESSAGE_VALID).
Proof. unfold Part000.b64_tail. outcome. Qed.

End Outcomes.

(** ** The moves of the state *)

Section Moves.

Ltac split_matches :=
  repeat match goal with
    | |- context [match ?x with _ => _ end] => destruct x
    end.

Ltac settle E :=
  first
    [ discriminate E
    | apply Splpv1_data_reply_outcome in E; destruct E as [E|E]
    | apply Part000_data_reply_outcome in E; destruct E as [E|E]
    | apply Splpv1_b64_tail_outcome in E; destruct E as [E|E]
    | apply Part000_b64_tail_outcome in E; destruct E as [E|E]
    | idtac ];
  inversion E; subst; cbn; tauto.

Ltac moves validate :=
  unfold validate, bind, reset_invalid; cbv beta;
  cbn [direction text_message Direction_eqb negb];
  split_matches; intros E; settle E.

Lemma Splpv1_moves (state : State) (msg : Message) (s' : State)
  (v : test_status) :
  Splpv1.validate_message state msg = Ok (s', v) ->
  match v with
  | MESSAGE_VALID =>
      match state with
      | INIT => s' = CONNECTING /\ direction msg = A_TO_B
      | CONNECTING => s' = CONNECTED /\ direction msg = B_TO_A
      | CONNECTED =>
          In s' [WAITING_VER; WAITING_DATA; WAITING_B64_DATA; DISCONNECTING]
          /\ direction msg = A_TO_B
      | WAITING_VER => s' = CONNECTED
      | WAITING_DATA =>
          (s' = CONNECTED \/ s' = WAITING_DATA) /\ direction msg = B_TO_A
      | WAITING_B64_DATA => s' = CONNECTED /\ direction msg = B_TO_A
      | DISCONNECTING => s' = INIT /\ direction msg = B_TO_A
      end
  | MESSAGE_INVALID =>
      s' = INIT
      \/ (state = CONNECTED /\ s' = CONNECTED /\ direction msg = A_TO_B)
  end.
Proof.
  destruct msg as [[|] text]; destruct state;
    moves Splpv1.validate_message.
Qed.

Lemma Part000_moves (state : State) (msg : Message) (s' : State)
  (v : test_status) :
  Part000.validate_message state msg = Ok (s', v) ->
  match v with
  | MESSAGE_VALID =>
      match state with
      | INIT => s' = CONNECTING /\ direction msg = A_TO_B
      | CONNECTING => s' = CONNECTED /\ direction msg = B_TO_A
      | CONNECTED =>
          In s' [WAITING_VER; WAITING_DATA; WAITING_B64_DATA; DISCONNECTING]
          /\ direction msg = A_TO_B
      | WAITING_VER => s' = CONNECTED /\ direction msg = B_TO_A
      | WAITING_DATA =>
          (s' = CONNECTED \/ s' = WAITING_DATA) /\ direction msg = B_TO_A
      | WAITING_B64_DATA => s' = CONNECTED /\ direction msg = B_TO_A
      | DISCONNECTING => s' = INIT /\ direction msg = B_TO_A
      end
  | MESSAGE_INVALID =>
      s' = INIT
      \/ (state = CONNECTED /\ s' = CONNECTED /\ direction msg = A_TO_B)
  end.
Proof.
  destruct msg as [[|] text]; destruct state;
    moves Part000.validate_message.
Qed.

End Moves.

(** ** The replies that are accepted *)

Section AcceptedReplies.

Lemma ascii_text_skipn (n : nat) (s : cstring) :
  ascii_text s -> ascii_text (skipn n s).
Proof.
  intros H. rewrite <- (firstn_skipn n s) in H.
  now apply ascii_text_app in H.
Qed.

(** A branch of [WAITING_DATA] accepts no other text than the command, a
    space, allowed characters, a space and the command again. *)
Lemma data_reply_scan_valid_shape (P : Z -> bool) (text CMD : cstring) :
  ascii_text text -> ascii_text CMD ->
  strncmp text CMD (length CMD) = 0 ->
  data_reply_scan P text CMD (length CMD) = Ok (CONNECTED, MESSAGE_VALID) ->
  exists tok, text = CMD ++ [32] ++ tok ++ [32] ++ CMD
              /\ forallb P tok = true.
Proof.
  intros Htext HCMD Hpre H.
  destruct (strncmp_zero text CMD HCMD Hpre) as [rest ->].
  unfold data_reply_scan in H.
  destruct rest as [|c rest].
  { rewrite app_nil_r, char_at_end in H. discriminate H. }
  rewrite char_at_app_head in H. cbn [bind] in H.
  destruct (Z.eqb_spec c 32) as [->|_]; [|discriminate H].
  cbn [negb] in H.
  assert (Etext : CMD ++ 32 :: rest = (CMD ++ [32]) ++ rest)
    by now rewrite <- app_assoc.
  assert (Elen : S (length CMD) = length (CMD ++ [32]))
    by (rewrite length_app; cbn; lia).
  rewrite Etext, Elen, skipn_app_tail in H.
  destruct (scan_token P rest (length (CMD ++ [32]))) as [j|] eqn:Escan;
    [|discriminate H].
  destruct (scan_token_stop _ _ _ _ Escan) as (Hj & Hall & Hstop).
  set (k := Nat.sub j (length (CMD ++ [32]))) in *.
  replace j with (Nat.add (length (CMD ++ [32])) k) in H by lia.
  rewrite char_at_app_right in H.
  destruct (Nat.eq_dec k (length rest)) as [Hk|Hk].
  { rewrite Hk, char_at_end in H. discriminate H. }
  rewrite (char_at_lt rest k) in H by lia. cbn [bind] in H.
  destruct (Z.eqb_spec (nth k rest 0) 0) as [|Hnz]; [discriminate H|].
  destruct Hstop as [Hsp|Hz]; [|contradiction].
  unfold strcmp_from in H.
  replace (Nat.add (Nat.add (length (CMD ++ [32])) k) 1)
    with (Nat.add (length (CMD ++ [32])) (S k)) in H by lia.
  rewrite skipn_app_right in H.
  destruct (Nat.leb _ _); [|discriminate H]. cbn [bind] in H.
  destruct (Z.eqb_spec (strcmp (skipn (S k) rest) CMD) 0) as [E|_];
    [|discriminate H].
  apply ascii_text_app in Htext. destruct Htext as [_ Hrest].
  apply Forall_cons_iff in Hrest. destruct Hrest as [_ Hrest].
  apply strcmp_zero in E; [|now apply ascii_text_skipn|exact HCMD].
  exists (firstn k rest). split; [|exact Hall].
  cbn [app]. do 2 f_equal.
  rewrite <- (firstn_skipn k rest) at 1. f_equal.
  rewrite (skipn_nth_cons rest k) by lia. now rewrite Hsp, E.
Qed.

End AcceptedReplies.

(** ** The rows of exact texts *)

(** X1.  In [INIT] an ASCII message is valid exactly when it is
    [CONNECT] sent from A to B, and then the state becomes
    [CONNECTING]; any other message is invalid and the state stays
    [INIT].  Both copies. *)
Theorem X1_init_accepts_connect_only (msg : Message) :
  ascii_text (text_message msg) ->
  (direction msg = A_TO_B /\ text_message msg = CONNECT ->
   Splpv1.validate_message INIT msg = Ok (CONNECTING, MESSAGE_VALID)
   /\ Part000.validate_message INIT msg = Ok (CONNECTING, MESSAGE_VALID))
  /\ (~ (direction msg = A_TO_B /\ text_message msg = CONNECT) ->
      Splpv1.validate_message INIT msg = Ok (INIT, MESSAGE_INVALID)
      /\ Part000.validate_message INIT msg = Ok (INIT, MESSAGE_INVALID)).
Proof.
  intros Htext. split.
  - destruct msg as [dir text]. cbn [direction text_message].
    intros [-> ->]. split; reflexivity.
  - now apply init_row.
Qed.

(** X1 at the message [CONNECT] sent from B to A. *)
Lemma X1_init_accepts_connect_only_witness :
  Splpv1.validate_message INIT (b_to_a "CONNECT") = Ok (INIT, MESSAGE_INVALID)
  /\ Part000.validate_message INIT (b_to_a "CONNECT")
     = Ok (INIT, MESSAGE_INVALID).
Proof.
  refine (proj2 (X1_init_accepts_connect_only (b_to_a "CONNECT") _) _).
  - apply ascii_textb_spec. vm_compute. reflexivity.
  - cbn. intros [H _]. discriminate H.
Defined.

(** X2.  In [CONNECTING] an ASCII message is valid exactly when it is
    [CONNECT_OK] sent from B to A, and then the state becomes
    [CONNECTED]; any other message is invalid and resets the state to
    [INIT].  Both copies. *)
Theorem X2_connecting_accepts_connect_ok_only (msg : Message) :
  ascii_text (text_message msg) ->
  (direction msg = B_TO_A /\ text_message msg = CONNECT_OK ->
   Splpv1.validate_message CONNECTING msg = Ok (CONNECTED, MESSAGE_VALID)
   /\ Part000.validate_message CONNECTING msg = Ok (CONNECTED, MESSAGE_VALID))
  /\ (~ (direction msg = B_TO_A /\ text_message msg = CONNECT_OK) ->
      Splpv1.validate_message CONNECTING msg = Ok (INIT, MESSAGE_INVALID)
      /\ Part000.validate_message CONNECTING msg = Ok (INIT, MESSAGE_INVALID)).
Proof.
  intros Htext. split.
  - destruct msg as [dir text]. cbn [direction text_message].
    intros [-> ->]. split; reflexivity.
  - now apply connecting_row.
Qed.

(** X2 at the message [CONNECT] sent from B to A. *)
Lemma X2_connecting_accepts_connect_ok_only_witness :
  Splpv1.validate_message CONNECTING (b_to_a "CONNECT")
  = Ok (INIT, MESSAGE_INVALID)
  /\ Part000.validate_message CONNECTING (b_to_a "CONNECT")
     = Ok (INIT, MESSAGE_INVALID).
Proof.
  refine (proj2 (X2_connecting_accepts_connect_ok_only (b_to_a "CONNECT") _) _).
  - apply ascii_textb_spec. vm_compute. reflexivity.
  - cbn. intros [_ H]. discriminate H.
Defined.

(** X3.  Whatever the ASCII message, a call in [DISCONNECTING] leaves
    the state at [INIT]; its verdict is valid exactly when the message
    is [DISCONNECT_OK] sent from B to A.  Both copies. *)
Theorem X3_disconnecting_always_ends_in_init (msg : Message) :
  ascii_text (text_message msg) ->
  (direction msg = B_TO_A /\ text_message msg = DISCONNECT_OK ->
   Splpv1.validate_message DISCONNECTING msg = Ok (INIT, MESSAGE_VALID)
   /\ Part000.validate_message DISCONNECTING msg = Ok (INIT, MESSAGE_VALID))
  /\ (~ (direction msg = B_TO_A /\ text_message msg = DISCONNECT_OK) ->
      Splpv1.validate_message DISCONNECTING msg = Ok (INIT, MESSAGE_INVALID)
      /\ Part000.validate_message DISCONNECTING msg
         = Ok (INIT, MESSAGE_INVALID)).
Proof.
  intros Htext. split.
  - destruct msg as [dir text]. cbn [direction text_message].
    intros [-> ->]. split; reflexivity.
  - now apply disconnecting_row.
Qed.

(** X3 at the message [DISCONNECT_OK] sent from A to B. *)
Lemma X3_disconnecting_always_ends_in_init_witness :
  Splpv1.validate_message DISCONNECTING (a_to_b "DISCONNECT_OK")
  = Ok (INIT, MESSAGE_INVALID)
  /\ Part000.validate_message DISCONNECTING (a_to_b "DISCONNECT_OK")
     = Ok (INIT, MESSAGE_INVALID).
Proof.
  refine (proj2 (X3_disconnecting_always_ends_in_init
                   (a_to_b "DISCONNECT_OK") _) _).
  - apply ascii_textb_spec. vm_compute. reflexivity.
  - cbn. intros [H _]. discriminate H.
Defined.

(** X4.  In [CONNECTED] an ASCII text sent from A to B decides the next
    state: [GET_VER] leads to [WAITING_VER], [GET_DATA], [GET_FILE] and
    [GET_COMMAND] to [WAITING_DATA], [GET_B64] to [WAITING_B64_DATA],
    [DISCONNECT] to [DISCONNECTING], each with a valid verdict; any
    other text is invalid and the state stays [CONNECTED].  The two
    copies test the texts in different orders and agree. *)
Theorem X4_connected_dispatch (text : cstring) :
  ascii_text text ->
  let msg := {| direction := A_TO_B; text_message := text |} in
  Splpv1.validate_message CONNECTED msg = Part000.validate_message CONNECTED msg
  /\ (text = GET_VER ->
      Splpv1.validate_message CONNECTED msg = Ok (WAITING_VER, MESSAGE_VALID))
  /\ (In text [GET_DATA; GET_FILE; GET_COMMAND] ->
      Splpv1.validate_message CONNECTED msg = Ok (WAITING_DATA, MESSAGE_VALID))
  /\ (text = GET_B64 ->
      Splpv1.validate_message CONNECTED msg
      = Ok (WAITING_B64_DATA, MESSAGE_VALID))
  /\ (text = DISCONNECT ->
      Splpv1.validate_message CONNECTED msg
      = Ok (DISCONNECTING, MESSAGE_VALID))
  /\ (~ In text [GET_VER; GET_DATA; GET_FILE; GET_COMMAND; GET_B64; DISCONNECT] ->
      Splpv1.validate_message CONNECTED msg = Ok (CONNECTED, MESSAGE_INVALID)).
Proof.
  intros Htext msg. unfold msg.
  destruct (in_dec (list_eq_dec Z.eq_dec) text
              [GET_VER; GET_DATA; GET_FILE; GET_COMMAND; GET_B64; DISCONNECT])
    as [Hin|Hno].
  - cbn [In] in Hin.
    repeat (destruct Hin as [<-|Hin]; [
      split; [reflexivity|];
      repeat split; intros H; try reflexivity;
      try discriminate H;
      try (exfalso; apply H; cbn; tauto);
      try (exfalso; cbn in H; intuition discriminate) |]).
    contradiction.
  - destruct (connected_unknown_command text Htext Hno) as [H1 H2].
    split; [now rewrite H1, H2|].
    repeat split; intros H; try exact H1; exfalso; apply Hno;
      try (rewrite H; cbn; tauto); cbn in *; tauto.
Qed.

(** X4 at the text [GET_VERSION]. *)
Lemma X4_connected_dispatch_witness :
  Splpv1.validate_message CONNECTED (a_to_b "GET_VERSION")
  = Ok (CONNECTED, MESSAGE_INVALID).
Proof.
  refine (proj2 (proj2 (proj2 (proj2 (proj2
    (X4_connected_dispatch (str "GET_VERSION") _))))) _).
  - apply ascii_textb_spec. vm_compute. reflexivity.
  - cbn. intuition discriminate.
Defined.

(** ** The replies with a variable part *)

(** X5.  In [WAITING_VER] an ASCII text is valid, and leads to
    [CONNECTED], exactly when it is [VERSION], one space, and then
    digits only, possibly none; any other text resets the state to
    [INIT].  [part_000] asks in addition that the message come from B to
    A; [src/splpv1.c] answers the same whatever the direction. *)
Theorem X5_version_reply_language (text : cstring) :
  ascii_text text ->
  let accepted :=
    exists digits, text = VERSION ++ [32] ++ digits
                   /\ forallb is_digit digits = true in
  (accepted ->
   Part000.validate_message WAITING_VER
     {| direction := B_TO_A; text_message := text |}
   = Ok (CONNECTED, MESSAGE_VALID)
   /\ forall d, Splpv1.validate_message WAITING_VER
                  {| direction := d; text_message := text |}
                = Ok (CONNECTED, MESSAGE_VALID))
  /\ (~ accepted ->
      Part000.validate_message WAITING_VER
        {| direction := B_TO_A; text_message := text |}
      = Ok (INIT, MESSAGE_INVALID)
      /\ forall d, Splpv1.validate_message WAITING_VER
                     {| direction := d; text_message := text |}
                   = Ok (INIT, MESSAGE_INVALID)).
Proof.
  intros Htext accepted.
  assert (H : (accepted ->
               Part000.validate_message WAITING_VER
                 {| direction := B_TO_A; text_message := text |}
               = Ok (CONNECTED, MESSAGE_VALID))
              /\ (~ accepted ->
                  Part000.validate_message WAITING_VER
                    {| direction := B_TO_A; text_message := text |}
                  = Ok (INIT, MESSAGE_INVALID))).
  { split.
    - intros (digits & -> & Hd).
      apply ascii_text_app in Htext. destruct Htext as [_ Htext].
      apply Forall_cons_iff in Htext. destruct Htext as [_ Htext].
      pose proof (Part000_version_reply digits Htext) as E.
      unfold version_reply in E. now rewrite E, Hd.
    - intros Hno.
      destruct (Z.eqb_spec (strncmp text (VERSION ++ [32])
                              (length (VERSION ++ [32]))) 0) as [E|E].
      + apply strncmp_zero in E; [|apply ascii_textb_spec; reflexivity].
        destruct E as [digits ->].
        apply ascii_text_app in Htext. destruct Htext as [_ Htext].
        pose proof (Part000_version_reply digits Htext) as E.
        unfold version_reply in E.
        change ((VERSION ++ [32]) ++ digits) with (VERSION ++ [32] ++ digits).
        rewrite E.
        destruct (forallb is_digit digits) eqn:Hd; [|reflexivity].
        exfalso. apply Hno. now exists digits.
      + apply Part000_version_other. intros digits ->. apply E.
        change (VERSION ++ [32] ++ digits) with ((VERSION ++ [32]) ++ digits).
        apply strncmp_prefix. }
  destruct H as [Hyes Hno].
  split; intros Ha; (split; [|intros d; rewrite Splpv1_version_any_direction]);
    auto.
Qed.

(** X5 at the text [VERSION 12]. *)
Lemma X5_version_reply_language_witness :
  Part000.validate_message WAITING_VER (b_to_a "VERSION 12")
  = Ok (CONNECTED, MESSAGE_VALID)
  /\ forall d, Splpv1.validate_message WAITING_VER
                 {| direction := d; text_message := str "VERSION 12" |}
               = Ok (CONNECTED, MESSAGE_VALID).
Proof.
  refine (proj1 (X5_version_reply_language (str "VERSION 12") _) _).
  - apply ascii_textb_spec. vm_compute. reflexivity.
  - exists (str "12"). split; reflexivity.
Defined.

(** X6.  In [WAITING_DATA], [part_000] sends an ASCII text from B to A
    back to [CONNECTED] with a valid verdict exactly when the text is
    one of [GET_DATA], [GET_FILE], [GET_COMMAND], one space, a token of
    lowercase letters, digits and ['.'] (possibly empty), one space, and
    the same command again. *)
Theorem X6_part000_data_reply_language (text : cstring) :
  ascii_text text ->
  Part000.validate_message WAITING_DATA
    {| direction := B_TO_A; text_message := text |}
  = Ok (CONNECTED, MESSAGE_VALID)
  <-> exists CMD tok,
        In CMD [GET_DATA; GET_FILE; GET_COMMAND]
        /\ text = CMD ++ [32] ++ tok ++ [32] ++ CMD
        /\ forallb is_data_char tok = true.
Proof.
  intros Htext. destruct ascii_literals as (Hd & Hf & Hc & _). split.
  - unfold Part000.validate_message.
    cbn [direction text_message Direction_eqb negb].
    rewrite !Part000_data_reply_scan by exact Htext.
    destruct (Z.eqb_spec (strncmp text GET_DATA 8) 0) as [E|_].
    { intros H.
      destruct (data_reply_scan_valid_shape _ text GET_DATA Htext Hd E H)
        as (tok & Et & Ht).
      exists GET_DATA, tok. cbn [In]. tauto. }
    destruct (Z.eqb_spec (strncmp text GET_FILE 8) 0) as [E|_].
    { intros H.
      destruct (data_reply_scan_valid_shape _ text GET_FILE Htext Hf E H)
        as (tok & Et & Ht).
      exists GET_FILE, tok. cbn [In]. tauto. }
    destruct (Z.eqb_spec (strncmp text GET_COMMAND 11) 0) as [E|_].
    { intros H.
      destruct (data_reply_scan_valid_shape _ text GET_COMMAND Htext Hc E H)
        as (tok & Et & Ht).
      exists GET_COMMAND, tok. cbn [In]. tauto. }
    discriminate.
  - intros (CMD & tok & HCMD & -> & Htok).
    apply ascii_text_app in Htext. destruct Htext as [_ Htext].
    apply Forall_cons_iff in Htext. destruct Htext as [_ Htext].
    apply ascii_text_app in Htext. destruct Htext as [Htext _].
    pose proof (Part000_data_reply_message CMD tok HCMD Htext) as E.
    unfold data_reply_message in E. now rewrite E, Htok.
Qed.

(** X6 at the text [GET_FILE a.1 GET_FILE]. *)
Lemma X6_part000_data_reply_language_witness :
  Part000.validate_message WAITING_DATA (b_to_a "GET_FILE a.1 GET_FILE")
  = Ok (CONNECTED, MESSAGE_VALID).
Proof.
  refine (proj2 (X6_part000_data_reply_language
                   (str "GET_FILE a.1 GET_FILE") _) _).
  - apply ascii_textb_spec. vm_compute. reflexivity.
  - exists GET_FILE, (str "a.1"). cbn [In]. repeat split; auto.
Defined.

(** X7.  [src/splpv1.c] does the same with a wider token: lowercase
    letters, digits, ['.'], and also [':'] and [';'], which its digit
    range takes in. *)
Theorem X7_splpv1_data_reply_language (text : cstring) :
  ascii_text text ->
  Splpv1.validate_message WAITING_DATA
    {| direction := B_TO_A; text_message := text |}
  = Ok (CONNECTED, MESSAGE_VALID)
  <-> exists CMD tok,
        In CMD [GET_DATA; GET_FILE; GET_COMMAND]
        /\ text = CMD ++ [32] ++ tok ++ [32] ++ CMD
        /\ forallb (fun c => is_data_char c || (c =? 58) || (c =? 59)) tok
           = true.
Proof.
  intros Htext. destruct ascii_literals as (Hd & Hf & Hc & _).
  assert (Hext : forall tok,
             forallb (fun c => is_data_char c || (c =? 58) || (c =? 59)) tok
             = forallb Splpv1.data_char tok).
  { induction tok as [|c tok IH]; cbn; [reflexivity|].
    now rewrite IH, Splpv1_data_char_spec. }
  split.
  - unfold Splpv1.validate_message.
    cbn [direction text_message Direction_eqb negb].
    rewrite !Splpv1_data_reply_scan.
    destruct (Z.eqb_spec (strncmp text GET_DATA 8) 0) as [E|_].
    { intros H.
      destruct (data_reply_scan_valid_shape _ text GET_DATA Htext Hd E H)
        as (tok & Et & Ht).
      exists GET_DATA, tok. rewrite Hext. cbn [In]. tauto. }
    destruct (Z.eqb_spec (strncmp text GET_FILE 8) 0) as [E|_].
    { intros H.
      destruct (data_reply_scan_valid_shape _ text GET_FILE Htext Hf E H)
        as (tok & Et & Ht).
      exists GET_FILE, tok. rewrite Hext. cbn [In]. tauto. }
    destruct (Z.eqb_spec (strncmp text GET_COMMAND 11) 0) as [E|_].
    { intros H.
      destruct (data_reply_scan_valid_shape _ text GET_COMMAND Htext Hc E H)
        as (tok & Et & Ht).
      exists GET_COMMAND, tok. rewrite Hext. cbn [In]. tauto. }
    discriminate.
  - intros (CMD & tok & HCMD & -> & Htok). rewrite Hext in Htok.
    apply ascii_text_app in Htext. destruct Htext as [_ Htext].
    apply Forall_cons_iff in Htext. destruct Htext as [_ Htext].
    apply ascii_text_app in Htext. destruct Htext as [Htext _].
    pose proof (Splpv1_data_reply_message CMD tok HCMD Htext) as E.
    unfold data_reply_message in E. now rewrite E, Htok.
Qed.

(** X7 at the text [GET_COMMAND 10:30 GET_COMMAND]. *)
Lemma X7_splpv1_data_reply_language_witness :
  Splpv1.validate_message WAITING_DATA
    (b_to_a "GET_COMMAND 10:30 GET_COMMAND")
  = Ok (CONNECTED, MESSAGE_VALID).
Proof.
  refine (proj2 (X7_splpv1_data_reply_language
                   (str "GET_COMMAND 10:30 GET_COMMAND") _) _).
  - apply ascii_textb_spec. vm_compute. reflexivity.
  - exists GET_COMMAND, (str "10:30"). cbn [In]. repeat split; auto.
Defined.

(** X8.  In [WAITING_DATA] a text sent from B to A is answered with a
    valid verdict while the state stays [WAITING_DATA] exactly when it
    begins with none of [GET_DATA], [GET_FILE], [GET_COMMAND]: no branch
    is entered and the call ends in the final [return MESSAGE_VALID].
    Both copies, whatever the characters of the text. *)
Theorem X8_waiting_data_ignores_foreign_text (text : cstring) :
  let msg := {| direction := B_TO_A; text_message := text |} in
  let foreign :=
    forall CMD rest, In CMD [GET_DATA; GET_FILE; GET_COMMAND] ->
                     text <> CMD ++ rest in
  (Splpv1.validate_message WAITING_DATA msg = Ok (WAITING_DATA, MESSAGE_VALID)
   <-> foreign)
  /\ (Part000.validate_message WAITING_DATA msg
      = Ok (WAITING_DATA, MESSAGE_VALID)
      <-> foreign).
Proof.
  intros msg foreign.
  assert (P1 : forall rest, strncmp (GET_DATA ++ rest) GET_DATA 8 = 0)
    by (intros rest; apply (strncmp_prefix GET_DATA)).
  assert (P2 : forall rest, strncmp (GET_FILE ++ rest) GET_FILE 8 = 0)
    by (intros rest; apply (strncmp_prefix GET_FILE)).
  assert (P3 : forall rest, strncmp (GET_COMMAND ++ rest) GET_COMMAND 11 = 0)
    by (intros rest; apply (strncmp_prefix GET_COMMAND)).
  assert (Hstay : foreign ->
            Splpv1.validate_message WAITING_DATA msg
            = Ok (WAITING_DATA, MESSAGE_VALID)
            /\ Part000.validate_message WAITING_DATA msg
               = Ok (WAITING_DATA, MESSAGE_VALID))
    by apply waiting_data_unknown_prefix.
  assert (Hback :
            (Splpv1.validate_message WAITING_DATA msg
             = Ok (WAITING_DATA, MESSAGE_VALID)
             \/ Part000.validate_message WAITING_DATA msg
                = Ok (WAITING_DATA, MESSAGE_VALID)) ->
            foreign).
  { unfold Splpv1.validate_message, Part000.validate_message, msg.
    cbn [direction text_message Direction_eqb negb].
    destruct (Z.eqb_spec (strncmp text GET_DATA 8) 0) as [_|E1].
    { intros [H|H];
        [apply Splpv1_data_reply_outcome in H
        |apply Part000_data_reply_outcome in H];
        destruct H as [H|H]; discriminate H. }
    destruct (Z.eqb_spec (strncmp text GET_FILE 8) 0) as [_|E2].
    { intros [H|H];
        [apply Splpv1_data_reply_outcome in H
        |apply Part000_data_reply_outcome in H];
        destruct H as [H|H]; discriminate H. }
    destruct (Z.eqb_spec (strncmp text GET_COMMAND 11) 0) as [_|E3].
    { intros [H|H];
        [apply Splpv1_data_reply_outcome in H
        |apply Part000_data_reply_outcome in H];
        destruct H as [H|H]; discriminate H. }
    intros _ CMD rest [<-|[<-|[<-|[]]]] ->.
    - apply E1, P1.
    - apply E2, P2.
    - apply E3, P3. }
  split; (split; [|apply Hstay]); intros H; apply Hback; tauto.
Qed.

(** ** The tables of [part_000] *)

(** X9.  The three lookup tables of [part_000] hold, at every index from
    0 to 127, exactly the character classes of the protocol: [table]
    the lowercase letters, the digits and ['.']; [tableBase64] the
    letters, the digits, ['+'] and ['/']; [tableBase64WithEquals] the
    same and ['=']. *)
Theorem X9_tables_hold_the_character_classes (c : Z) :
  0 <= c < 128 ->
  Part000.table_at Part000.table c = Ok (is_data_char c)
  /\ Part000.table_at Part000.tableBase64 c = Ok (is_base64_char c)
  /\ Part000.table_at Part000.tableBase64WithEquals c
     = Ok (is_base64_char c || (c =? 61)).
Proof.
  intros Hc. repeat split.
  - now apply table_spec.
  - now apply tableBase64_spec.
  - now apply tableBase64WithEquals_spec.
Qed.

(** X9 at ['='], which only the third table holds. *)
Lemma X9_tables_hold_the_character_classes_witness :
  Part000.table_at Part000.table 61 = Ok false
  /\ Part000.table_at Part000.tableBase64 61 = Ok false
  /\ Part000.table_at Part000.tableBase64WithEquals 61 = Ok true.
Proof.
  exact (X9_tables_hold_the_character_classes 61 ltac:(lia)).
Defined.

(** ** Reads inside the text *)

(** X10.  On an ASCII message a call reads past the terminating NUL of
    the text in one case only: in [WAITING_B64_DATA], on a message from
    B to A whose text is [B64:], a space and fewer than two characters;
    it then reads [text[7]].  In every other case the call returns a
    state and a verdict.  Both copies. *)
Theorem X10_reads_past_the_text_only_on_short_base64 (state : State)
  (msg : Message) :
  ascii_text (text_message msg) ->
  let short :=
    state = WAITING_B64_DATA /\ direction msg = B_TO_A
    /\ exists tok, text_message msg = B64 ++ [32] ++ tok
                   /\ (length tok < 2)%nat in
  (short ->
   Splpv1.validate_message state msg = Fault (ReadPastTerminator 7)
   /\ Part000.validate_message state msg = Fault (ReadPastTerminator 7))
  /\ (~ short ->
      (exists r, Splpv1.validate_message state msg = Ok r)
      /\ (exists r, Part000.validate_message state msg = Ok r)).
Proof.
  intros Htext short. split.
  - intros (-> & Hdir & tok & Etext & Hlen).
    destruct msg as [dir text]. cbn [direction text_message] in *.
    subst dir text.
    apply ascii_text_app in Htext. destruct Htext as [_ Htext].
    apply Forall_cons_iff in Htext. destruct Htext as [_ Htext].
    exact (b64_short_token_faults tok Htext Hlen).
  - intros Hnot.
    assert (Hlong : state = WAITING_B64_DATA -> direction msg = B_TO_A ->
                    forall tok, text_message msg = B64 ++ [32] ++ tok ->
                                (2 <= length tok)%nat).
    { intros Hs Hd tok Et.
      destruct (Nat.ltb_spec (length tok) 2) as [Hlt|Hge]; [|exact Hge].
      exfalso. apply Hnot. repeat split; try assumption. now exists tok. }
    split.
    + now apply Splpv1_validate_message_returns.
    + now apply Part000_validate_message_returns.
Qed.

(** X10 at the message [B64: QQ==] in [WAITING_B64_DATA]. *)
Lemma X10_reads_past_the_text_only_on_short_base64_witness :
  (exists r, Splpv1.validate_message WAITING_B64_DATA (b_to_a "B64: QQ==")
             = Ok r)
  /\ (exists r, Part000.validate_message WAITING_B64_DATA (b_to_a "B64: QQ==")
                = Ok r).
Proof.
  refine (proj2 (X10_reads_past_the_text_only_on_short_base64
                   WAITING_B64_DATA (b_to_a "B64: QQ==") _) _).
  - apply ascii_textb_spec. vm_compute. reflexivity.
  - intros (_ & _ & tok & Et & Hlen).
    change (text_message (b_to_a "B64: QQ=="))
      with ((B64 ++ [32]) ++ str "QQ==") in Et.
    change (B64 ++ [32] ++ tok) with ((B64 ++ [32]) ++ tok) in Et.
    apply app_inv_head in Et. subst tok. cbn in Hlen. lia.
Defined.

(** X11.  A session made of ASCII messages none of which is [B64:], a
    space and fewer than two characters never reads past a text: from
    any state, the calls return one after the other.  Both copies. *)
Theorem X11_sessions_without_short_base64_return (state : State)
  (msgs : list Message) :
  Forall (fun msg =>
            ascii_text (text_message msg)
            /\ forall tok, text_message msg = B64 ++ [32] ++ tok ->
                           (2 <= length tok)%nat) msgs ->
  (exists r, run Splpv1.validate_message state msgs = Ok r)
  /\ (exists r, run Part000.validate_message state msgs = Ok r).
Proof.
  intros Hmsgs. split; revert state;
    induction Hmsgs as [|msg msgs [Htext Hlong] _ IH]; intros state;
    cbn [run]; try (now eexists).
  - destruct (Splpv1_validate_message_returns state msg Htext) as [r ->];
      [intros _ _; exact Hlong|].
    cbn [bind]. destruct (IH (fst r)) as [r' ->]. cbn [bind]. now eexists.
  - destruct (Part000_validate_message_returns state msg Htext) as [r ->];
      [intros _ _; exact Hlong|].
    cbn [bind]. destruct (IH (fst r)) as [r' ->]. cbn [bind]. now eexists.
Qed.

(** X11 at a session that is reset and starts again. *)
Lemma X11_sessions_without_short_base64_return_witness :
  (exists r, run Splpv1.validate_message CONNECTED
               [b_to_a "B64: QQ=="; a_to_b "CONNECT"] = Ok r)
  /\ (exists r, run Part000.validate_message CONNECTED
                  [b_to_a "B64: QQ=="; a_to_b "CONNECT"] = Ok r).
Proof.
  refine (X11_sessions_without_short_base64_return CONNECTED
            [b_to_a "B64: QQ=="; a_to_b "CONNECT"] _).
  apply Forall_cons; [split|apply Forall_cons; [split|apply Forall_nil]].
  - apply ascii_textb_spec. vm_compute. reflexivity.
  - intros tok Et.
    change (text_message (b_to_a "B64: QQ=="))
      with ((B64 ++ [32]) ++ str "QQ==") in Et.
    change (B64 ++ [32] ++ tok) with ((B64 ++ [32]) ++ tok) in Et.
    apply app_inv_head in Et. subst tok. cbn. lia.
  - apply ascii_textb_spec. vm_compute. reflexivity.
  - intros tok Et. discriminate Et.
Defined.

(** ** The two copies side by side *)

(** X12.  The two copies return the same state and verdict on every
    ASCII message, except possibly in two situations: [WAITING_VER] with
    a message from A to B, and [WAITING_DATA] with a text that holds
    [':'] or [';']. *)
Theorem X12_copies_differ_in_two_situations_only (state : State)
  (msg : Message) :
  ascii_text (text_message msg) ->
  (state = WAITING_VER -> direction msg = B_TO_A) ->
  (state = WAITING_DATA ->
   ~ In 58 (text_message msg) /\ ~ In 59 (text_message msg)) ->
  Splpv1.validate_message state msg = Part000.validate_message state msg.
Proof.
  intros Htext Hver Hdata.
  destruct state; try reflexivity.
  - (* CONNECTED *)
    destruct msg as [dir text]. cbn [text_message direction] in *.
    unfold Splpv1.validate_message, Part000.validate_message.
    cbn [text_message direction].
    destruct (negb (Direction_eqb dir A_TO_B)); [reflexivity|].
    destruct (Z.eqb_spec (strcmp text GET_VER) 0) as [E|_].
    { apply strcmp_zero in E;
        [subst text; reflexivity|exact Htext
        |apply ascii_textb_spec; reflexivity]. }
    destruct ((strcmp text GET_DATA =? 0) || (strcmp text GET_FILE =? 0)
              || (strcmp text GET_COMMAND =? 0)); [reflexivity|].
    destruct (Z.eqb_spec (strcmp text GET_B64) 0) as [E|_].
    { apply strcmp_zero in E;
        [subst text; reflexivity|exact Htext
        |apply ascii_textb_spec; reflexivity]. }
    reflexivity.
  - (* WAITING_VER *)
    destruct msg as [dir text]. cbn [direction] in Hver.
    rewrite (Hver eq_refl). reflexivity.
  - (* WAITING_DATA *)
    destruct (Hdata eq_refl) as [H58 H59].
    apply copies_agree; assumption.
  - (* WAITING_B64_DATA *)
    symmetry. now apply Part000_b64_reply_eq.
Qed.

(** X12 at a data reply with an allowed token. *)
Lemma X12_copies_differ_in_two_situations_only_witness :
  Splpv1.validate_message WAITING_DATA (b_to_a "GET_DATA a.1 GET_DATA")
  = Part000.validate_message WAITING_DATA (b_to_a "GET_DATA a.1 GET_DATA").
Proof.
  refine (X12_copies_differ_in_two_situations_only WAITING_DATA
            (b_to_a "GET_DATA a.1 GET_DATA") _ _ _).
  - apply ascii_textb_spec. vm_compute. reflexivity.
  - discriminate.
  - intros _. split; vm_compute; intuition discriminate.
Defined.

(** ** The moves of the state *)

(** X13.  A valid verdict moves the state along one of these edges only:
    [INIT] to [CONNECTING]; [CONNECTING] to [CONNECTED]; [CONNECTED] to
    [WAITING_VER], [WAITING_DATA], [WAITING_B64_DATA] or
    [DISCONNECTING]; [WAITING_VER] and [WAITING_B64_DATA] to
    [CONNECTED]; [WAITING_DATA] to [CONNECTED] or to itself;
    [DISCONNECTING] to [INIT].  Both copies, any message. *)
Theorem X13_valid_verdict_follows_an_edge (state : State) (msg : Message)
  (s' : State) :
  Splpv1.validate_message state msg = Ok (s', MESSAGE_VALID)
  \/ Part000.validate_message state msg = Ok (s', MESSAGE_VALID) ->
  match state with
  | INIT => s' = CONNECTING
  | CONNECTING => s' = CONNECTED
  | CONNECTED =>
      In s' [WAITING_VER; WAITING_DATA; WAITING_B64_DATA; DISCONNECTING]
  | WAITING_VER => s' = CONNECTED
  | WAITING_DATA => s' = CONNECTED \/ s' = WAITING_DATA
  | WAITING_B64_DATA => s' = CONNECTED
  | DISCONNECTING => s' = INIT
  end.
Proof.
  intros [H|H];
    [apply Splpv1_moves in H|apply Part000_moves in H];
    cbn beta iota in H; destruct state; tauto.
Qed.

(** X13 at the message [GET_B64] in [CONNECTED]. *)
Lemma X13_valid_verdict_follows_an_edge_witness :
  Splpv1.validate_message CONNECTED (a_to_b "GET_B64")
  = Ok (WAITING_B64_DATA, MESSAGE_VALID)
  /\ In WAITING_B64_DATA
       [WAITING_VER; WAITING_DATA; WAITING_B64_DATA; DISCONNECTING].
Proof.
  split; [reflexivity|].
  exact (X13_valid_verdict_follows_an_edge CONNECTED (a_to_b "GET_B64")
           WAITING_B64_DATA (or_introl eq_refl)).
Defined.

(** X14.  A valid verdict is given only to a message that travels in
    the direction of the state: from A to B in [INIT] and [CONNECTED],
    from B to A in the other states.  [part_000] keeps to this in every
    state, [src/splpv1.c] in every state but [WAITING_VER]. *)
Theorem X14_valid_verdict_has_the_direction_of_the_state (state : State)
  (msg : Message) (s' : State) :
  Part000.validate_message state msg = Ok (s', MESSAGE_VALID)
  \/ (Splpv1.validate_message state msg = Ok (s', MESSAGE_VALID)
      /\ state <> WAITING_VER) ->
  direction msg = match state with
                  | INIT | CONNECTED => A_TO_B
                  | _ => B_TO_A
                  end.
Proof.
  intros [H|[H Hs]];
    [apply Part000_moves in H|apply Splpv1_moves in H];
    cbn beta iota in H; destruct state; tauto.
Qed.

(** X14 at the message [CONNECT_OK] in [CONNECTING]. *)
Lemma X14_valid_verdict_has_the_direction_of_the_state_witness :
  Part000.validate_message CONNECTING (b_to_a "CONNECT_OK")
  = Ok (CONNECTED, MESSAGE_VALID)
  /\ direction (b_to_a "CONNECT_OK") = B_TO_A.
Proof.
  split; [reflexivity|].
  exact (X14_valid_verdict_has_the_direction_of_the_state CONNECTING
           (b_to_a "CONNECT_OK") CONNECTED (or_introl eq_refl)).
Defined.

(** X15.  An invalid verdict resets the state to [INIT], with one
    exception: in [CONNECTED], a message from A to B that is invalid
    leaves the state at [CONNECTED].  Both copies, any message. *)
Theorem X15_invalid_verdict_resets_except_in_connected (state : State)
  (msg : Message) (s' : State) :
  Splpv1.validate_message state msg = Ok (s', MESSAGE_INVALID)
  \/ Part000.validate_message state msg = Ok (s', MESSAGE_INVALID) ->
  s' = INIT
  \/ (state = CONNECTED /\ s' = CONNECTED /\ direction msg = A_TO_B).
Proof.
  intros [H|H];
    [apply Splpv1_moves in H|apply Part000_moves in H]; exact H.
Qed.

(** X15 at the message [VERSION x] in [WAITING_VER]. *)
Lemma X15_invalid_verdict_resets_except_in_connected_witness :
  Splpv1.validate_message WAITING_VER (b_to_a "VERSION x")
  = Ok (INIT, MESSAGE_INVALID)
  /\ (INIT = INIT
      \/ (WAITING_VER = CONNECTED /\ INIT = CONNECTED
          /\ direction (b_to_a "VERSION x") = A_TO_B)).
Proof.
  split; [reflexivity|].
  exact (X15_invalid_verdict_resets_except_in_connected WAITING_VER
           (b_to_a "VERSION x") INIT (or_introl eq_refl)).
Defined.

(** ** Sessions *)

(** X16.  As long as no message is [CONNECT] sent from A to B, a
    session that starts in [INIT] stays in [INIT], and every one of its
    ASCII messages is answered invalid.  Both copies. *)
Theorem X16_init_waits_for_connect (msgs : list Message) :
  Forall (fun msg =>
            ascii_text (text_message msg)
            /\ ~ (direction msg = A_TO_B /\ text_message msg = CONNECT))
    msgs ->
  run Splpv1.validate_message INIT msgs
  = Ok (INIT, repeat MESSAGE_INVALID (length msgs))
  /\ run Part000.validate_message INIT msgs
     = Ok (INIT, repeat MESSAGE_INVALID (length msgs)).
Proof.
  induction 1 as [|msg msgs [Htext Hno] _ [IH1 IH2]]; [now split|].
  destruct (init_row msg Htext Hno) as [E1 E2].
  cbn [run length repeat]. rewrite E1, E2. cbn [bind fst snd].
  rewrite IH1, IH2. now split.
Qed.

(** X16 at a session of two messages. *)
Lemma X16_init_waits_for_connect_witness :
  run Splpv1.validate_message INIT [b_to_a "CONNECT"; a_to_b "GET_VER"]
  = Ok (INIT, [MESSAGE_INVALID; MESSAGE_INVALID])
  /\ run Part000.validate_message INIT [b_to_a "CONNECT"; a_to_b "GET_VER"]
     = Ok (INIT, [MESSAGE_INVALID; MESSAGE_INVALID]).
Proof.
  refine (X16_init_waits_for_connect
            [b_to_a "CONNECT"; a_to_b "GET_VER"] _).
  apply Forall_cons; [split|apply Forall_cons; [split|apply Forall_nil]].
  - apply ascii_textb_spec. vm_compute. reflexivity.
  - intros [H _]. discriminate H.
  - apply ascii_textb_spec. vm_compute. reflexivity.
  - intros [_ H]. discriminate H.
Defined.

(** X17.  In [WAITING_B64_DATA] an ASCII text sent from B to A is
    valid, and leads to [CONNECTED], exactly when it is [B64:], one
    space and a base64-shaped token: characters of the alphabet closed
    by at most two ['='], of a length that is a positive multiple of 4.
    Both copies. *)
Theorem X17_base64_reply_language (text : cstring) :
  ascii_text text ->
  let msg := {| direction := B_TO_A; text_message := text |} in
  let accepted :=
    exists tok, text = B64 ++ [32] ++ tok /\ base64_shaped tok in
  (Splpv1.validate_message WAITING_B64_DATA msg
   = Ok (CONNECTED, MESSAGE_VALID) <-> accepted)
  /\ (Part000.validate_message WAITING_B64_DATA msg
      = Ok (CONNECTED, MESSAGE_VALID) <-> accepted).
Proof.
  intros Htext msg accepted.
  rewrite (Part000_b64_reply_eq msg Htext).
  assert (H : Splpv1.validate_message WAITING_B64_DATA msg
              = Ok (CONNECTED, MESSAGE_VALID) <-> accepted);
    [|split; exact H].
  assert (Hreply : forall tok, ascii_text tok ->
            Splpv1.validate_message WAITING_B64_DATA
              {| direction := B_TO_A; text_message := B64 ++ [32] ++ tok |}
            = Ok (CONNECTED, MESSAGE_VALID) <-> base64_shaped tok).
  { intros tok Htok. rewrite <- base64_shapedb_spec.
    rewrite (Splpv1_b64_reply tok Htok
             : Splpv1.validate_message WAITING_B64_DATA
                 {| direction := B_TO_A; text_message := B64 ++ [32] ++ tok |}
               = _).
    unfold base64_shapedb.
    destruct (Nat.ltb_spec (length tok) 2) as [Hlt|Hge].
    - destruct (Nat.leb_spec 2 (length tok)) as [|_]; [lia|].
      cbn. split; discriminate.
    - fold (base64_shapedb tok).
      destruct (base64_shapedb tok); split; intros E;
        try reflexivity; discriminate E. }
  split.
  - intros Hv.
    assert (E : strncmp text (B64 ++ [32]) (length (B64 ++ [32])) = 0).
    { unfold Splpv1.validate_message, msg in Hv.
      cbn [direction text_message Direction_eqb negb] in Hv.
      destruct (Z.eqb_spec (strncmp text B64 4) 0) as [E|_];
        [|discriminate Hv].
      destruct (strncmp_zero text B64 (proj2 (proj2 (proj2 (proj2
                  ascii_literals)))) E) as [rest ->].
      destruct rest as [|c rest].
      { discriminate Hv. }
      cbn [negb] in Hv. change 4%nat with (length B64) in Hv at 1.
      rewrite char_at_app_head in Hv. cbn [bind] in Hv.
      destruct (Z.eqb_spec c 32) as [->|_]; [|discriminate Hv].
      apply (strncmp_prefix (B64 ++ [32]) rest). }
    apply strncmp_zero in E; [|apply ascii_textb_spec; reflexivity].
    destruct E as [tok ->]. exists tok. split; [reflexivity|].
    apply ascii_text_app in Htext. destruct Htext as [_ Htok].
    now apply (Hreply tok Htok).
  - intros (tok & -> & Hs).
    apply ascii_text_app in Htext. destruct Htext as [_ Htok].
    apply Forall_cons_iff in Htok. destruct Htok as [_ Htok].
    now apply (Hreply tok Htok).
Qed.

(** X17 at the text [B64: QUJD]. *)
Lemma X17_base64_reply_language_witness :
  Splpv1.validate_message WAITING_B64_DATA (b_to_a "B64: QUJD")
  = Ok (CONNECTED, MESSAGE_VALID).
Proof.
  refine (proj2 (proj1 (X17_base64_reply_language (str "B64: QUJD") _)) _).
  - apply ascii_textb_spec. vm_compute. reflexivity.
  - exists (str "QUJD"). split; [reflexivity|].
    apply base64_shapedb_spec. vm_compute. reflexivity.
Defined.
